(** * medobot: the query functions of [Hello.py]

    A shallow embedding of the look-up functions of the Streamlit front end
    ([clean_symptom], [display_disease_description], [match_symptoms],
    [display_precautions], [display_symptom_severity] and the three
    [medquad] searches) together with the fragments of Python and pandas
    they rest on, followed by the properties of the specification.

    Conventions of the embedding:
    - text is a [string] of ASCII characters; [lower], [strip] and
      [capitalize] act on the ASCII letters and the ASCII white space;
    - a DataFrame cell is a [cell]: a Python [str], an integer or the
      missing value [nan];
    - the five tables have the column schema of their CSV headers and are
      lists of rows in file order; [dataframes] records for each table
      whether it was loaded;
    - [st.write] appends its argument to the output, so every query function
      returns the list of the values it wrote, or the exception it raised. *)

From Stdlib Require Import String Ascii List Bool Arith ZArith QArith Qabs Lia.
From Stdlib Require Import Permutation Sorted DecimalString.
From Stdlib Require Import Uint63 PrimFloat SpecFloat FloatOps.
Import ListNotations.

Close Scope Q_scope.
Open Scope nat_scope.
Open Scope list_scope.
Open Scope string_scope.

(** ** Python strings *)

Module Py.

(** [str.isspace] on one ASCII character: TAB, LF, VT, FF, CR, the four
    separators FS, GS, RS, US and the space. *)
Definition isspace (c : ascii) : bool :=
  let n := nat_of_ascii c in
  (((9 <=? n) && (n <=? 13)) || ((28 <=? n) && (n <=? 32)))%nat.

Definition isupper (c : ascii) : bool :=
  let n := nat_of_ascii c in ((65 <=? n) && (n <=? 90))%nat.

Definition islower (c : ascii) : bool :=
  let n := nat_of_ascii c in ((97 <=? n) && (n <=? 122))%nat.

Definition isdigit (c : ascii) : bool :=
  let n := nat_of_ascii c in ((48 <=? n) && (n <=? 57))%nat.

Definition lower_char (c : ascii) : ascii :=
  if isupper c then ascii_of_nat (nat_of_ascii c + 32) else c.

Definition upper_char (c : ascii) : ascii :=
  if islower c then ascii_of_nat (nat_of_ascii c - 32) else c.

(** [s.lower()] *)
Fixpoint lower (s : string) : string :=
  match s with
  | EmptyString => EmptyString
  | String c s' => String (lower_char c) (lower s')
  end.

(** [s.lstrip()] *)
Fixpoint lstrip (s : string) : string :=
  match s with
  | EmptyString => EmptyString
  | String c s' => if isspace c then lstrip s' else s
  end.

(** [s.rstrip()] *)
Fixpoint rstrip (s : string) : string :=
  match s with
  | EmptyString => EmptyString
  | String c s' =>
      match rstrip s' with
      | EmptyString => if isspace c then EmptyString else String c EmptyString
      | r => String c r
      end
  end.

(** [s.strip()] *)
Definition strip (s : string) : string := rstrip (lstrip s).

(** [s.capitalize()] *)
Definition capitalize (s : string) : string :=
  match s with
  | EmptyString => EmptyString
  | String c s' => String (upper_char c) (lower s')
  end.

(** [s.split(sep)] for a one-character separator: never the empty list. *)
Fixpoint split (sep : ascii) (s : string) : list string :=
  match s with
  | EmptyString => [EmptyString]
  | String c s' =>
      let rest := split sep s' in
      if Ascii.eqb c sep then EmptyString :: rest
      else match rest with
           | h :: t => String c h :: t
           | [] => [String c EmptyString]
           end
  end.

(** [sub in s] *)
Fixpoint contains (sub s : string) : bool :=
  String.prefix sub s ||
  match s with
  | EmptyString => false
  | String _ s' => contains sub s'
  end.

(** [x in l] for a list of strings *)
Definition mem (x : string) (l : list string) : bool :=
  existsb (String.eqb x) l.

(** [str(z)] for an integer *)
Definition str_of_Z (z : Z) : string := NilZero.string_of_int (Z.to_int z).

End Py.

(** ** Python's [re], as far as [Series.str.contains] needs it

    [str.contains(pat)] has [regex=True] by default: it compiles [pat] with
    [re.compile] and keeps the elements in which [pat.search] finds a match.
    The fragment modelled here has literal characters, [.], the postfix
    operators [*], [+] and [?], alternation, groups and backslash-escaped
    punctuation.  [compile] answers [Invalid] where [re.compile] raises
    [re.error] and [Unsupported] on syntax outside the fragment (character
    classes, counted repetition, anchors, special sequences, group
    extensions, stacked quantifiers, deeply nested groups). *)

Module Re.

Inductive regex : Type :=
| Never
| Eps
| Chr (c : ascii)
| Dot
| Cat (r1 r2 : regex)
| Alt (r1 r2 : regex)
| Star (r : regex).

Fixpoint nullable (r : regex) : bool :=
  match r with
  | Never | Chr _ | Dot => false
  | Eps | Star _ => true
  | Cat r1 r2 => nullable r1 && nullable r2
  | Alt r1 r2 => nullable r1 || nullable r2
  end.

Definition newline : ascii := ascii_of_nat 10.

(** Brzozowski derivative; [.] matches every character but the newline. *)
Fixpoint deriv (a : ascii) (r : regex) : regex :=
  match r with
  | Never | Eps => Never
  | Chr c => if Ascii.eqb a c then Eps else Never
  | Dot => if Ascii.eqb a newline then Never else Eps
  | Cat r1 r2 =>
      if nullable r1 then Alt (Cat (deriv a r1) r2) (deriv a r2)
      else Cat (deriv a r1) r2
  | Alt r1 r2 => Alt (deriv a r1) (deriv a r2)
  | Star r1 => Cat (deriv a r1) (Star r1)
  end.

(** Does [r] match a prefix of [s]?  ([pat.match(s) is not None]) *)
Fixpoint match_prefix (r : regex) (s : string) : bool :=
  nullable r ||
  match s with
  | EmptyString => false
  | String a s' => match_prefix (deriv a r) s'
  end.

(** Does [r] match somewhere in [s]?  ([pat.search(s) is not None]) *)
Fixpoint search (r : regex) (s : string) : bool :=
  match_prefix r s ||
  match s with
  | EmptyString => false
  | String _ s' => search r s'
  end.

Inductive compiled : Type :=
| Compiled (r : regex)
| Invalid
| Unsupported.

(** One parsed atom, with whether a quantifier was already applied to it. *)
Record item : Type := { it_re : regex; it_quantified : bool }.

(** A group under construction: the finished alternatives and the atoms of
    the current one, both most recent first. *)
Record frame : Type := { branches : list regex; current : list item }.

Definition fresh : frame := {| branches := []; current := [] |}.

(** An atom placed in front of what follows it. *)
Definition step (acc : regex) (it : item) : regex :=
  match acc with
  | Eps => it_re it
  | _ => Cat (it_re it) acc
  end.

Definition seq_regex (items : list item) : regex :=
  fold_left step items Eps.

Definition frame_regex (f : frame) : regex :=
  fold_left (fun acc b => Alt b acc) (branches f) (seq_regex (current f)).

Definition push_item (f : frame) (r : regex) : frame :=
  {| branches := branches f;
     current := {| it_re := r; it_quantified := false |} :: current f |}.

Definition quantify (c : ascii) (r : regex) : regex :=
  if Ascii.eqb c "*" then Star r
  else if Ascii.eqb c "+" then Cat r (Star r)
  else Alt r Eps.

Definition is_quantifier (c : ascii) : bool :=
  Ascii.eqb c "*" || Ascii.eqb c "+" || Ascii.eqb c "?".

Definition is_alnum (c : ascii) : bool :=
  Py.isupper c || Py.islower c || Py.isdigit c.

Definition is_ascii (c : ascii) : bool := (nat_of_ascii c <? 128)%nat.

(** Groups nested deeper than this are left outside the fragment: how
    deep [re.compile] follows them depends on the interpreter's recursion
    limit. *)
Definition max_nesting : nat := 16.

(** The parser reads the pattern once; [outer] holds the enclosing groups,
    [top] the innermost one, [esc] whether a backslash was just read. *)
Fixpoint parse (s : string) (outer : list frame) (top : frame) (esc : bool)
  : compiled :=
  match s with
  | EmptyString =>
      if esc then Invalid                       (* bad escape (end of pattern) *)
      else match outer with
           | [] => Compiled (frame_regex top)
           | _ :: _ => Invalid                  (* missing ), unterminated subpattern *)
           end
  | String c s' =>
      if esc then
        if is_alnum c || negb (is_ascii c) then Unsupported
        else parse s' outer (push_item top (Chr c)) false
      else if Ascii.eqb c "\" then parse s' outer top true
      else if Ascii.eqb c "(" then
        if (max_nesting <=? length outer)%nat then Unsupported
        else parse s' (top :: outer) fresh false
      else if Ascii.eqb c ")" then
        match outer with
        | [] => Invalid                         (* unbalanced parenthesis *)
        | parent :: outer' =>
            parse s' outer' (push_item parent (frame_regex top)) false
        end
      else if Ascii.eqb c "|" then
        parse s' outer
          {| branches := seq_regex (current top) :: branches top;
             current := [] |} false
      else if is_quantifier c then
        match current top with
        | [] =>
            match branches top, outer with
            | [], _ :: _ =>
                if Ascii.eqb c "?" then Unsupported   (* the extension "(?" *)
                else Invalid
            | _, _ => Invalid                   (* nothing to repeat *)
            end
        | it :: items =>
            if it_quantified it then Unsupported
            else parse s' outer
                   {| branches := branches top;
                      current := {| it_re := quantify c (it_re it);
                                    it_quantified := true |} :: items |} false
        end
      else if Ascii.eqb c "." then parse s' outer (push_item top Dot) false
      else if Ascii.eqb c "[" || Ascii.eqb c "{" || Ascii.eqb c "^"
              || Ascii.eqb c "$" then Unsupported
      else parse s' outer (push_item top (Chr c)) false
  end.

(** [re.compile(pat)] *)
Definition compile (pat : string) : compiled := parse pat [] fresh false.

End Re.

(** ** Python floats and the format [:.2f] *)

Module Fmt.

(** [float(n)] for a count; the counts of a table stay far below 2^53. *)
Definition float_of_nat (n : nat) : float :=
  PrimFloat.of_uint63 (Uint63.of_Z (Z.of_nat n)).

(** [(count / total) * 100], in binary64 as Python computes it. *)
Definition percentage (count total : nat) : float :=
  PrimFloat.mul (PrimFloat.div (float_of_nat count) (float_of_nat total))
                (float_of_nat 100).

(** The integer nearest to [n / d], ties to the even one ([0 < d]). *)
Definition div_half_even (n d : Z) : Z :=
  let q := (n / d)%Z in
  let r := (n mod d)%Z in
  match (2 * r ?= d)%Z with
  | Lt => q
  | Gt => (q + 1)%Z
  | Eq => if Z.even q then q else (q + 1)%Z
  end.

(** The hundredths of [|x|], correctly rounded: [x = m * 2^e] exactly. *)
Definition hundredths (m : positive) (e : Z) : Z :=
  if (0 <=? e)%Z then (100 * Z.pos m * 2 ^ e)%Z
  else div_half_even (100 * Z.pos m) (2 ^ (- e)).

Definition two_digits (z : Z) : string :=
  if (z <? 10)%Z then "0" ++ Py.str_of_Z z else Py.str_of_Z z.

Definition fixed2 (h : Z) : string :=
  Py.str_of_Z (h / 100) ++ "." ++ two_digits (h mod 100).

Definition sign_str (s : bool) : string := if s then "-" else "".

(** [f"{x:.2f}"] *)
Definition format_2f (x : float) : string :=
  match Prim2SF x with
  | S754_zero s => sign_str s ++ "0.00"
  | S754_infinity s => sign_str s ++ "inf"
  | S754_nan => "nan"
  | S754_finite s m e => sign_str s ++ fixed2 (hundredths m e)
  end.

End Fmt.

(** ** Tables *)

(** A cell of a DataFrame read by [pd.read_csv]. *)
Inductive cell : Type :=
| CStr (s : string)
| CInt (z : Z)
| CNaN.

Definition cell_eq_dec (a b : cell) : {a = b} + {a <> b}.
Proof.
  decide equality; [apply string_dec | apply Z.eq_dec].
Defined.

Definition cell_eqb (a b : cell) : bool :=
  if cell_eq_dec a b then true else false.

(** [isinstance(c, str)] *)
Definition is_str (c : cell) : bool :=
  match c with CStr _ => true | _ => false end.

(** [str(c)], as an f-string field prints a cell *)
Definition py_str (c : cell) : string :=
  match c with
  | CStr s => s
  | CInt z => Py.str_of_Z z
  | CNaN => "nan"
  end.

(** dataset.csv: a disease and its symptom slots *)
Record dataset_row : Type :=
  { Disease : cell; Symptoms : list cell }.

(** symptom_description.csv *)
Record description_row : Type :=
  { d_Disease : cell; Description : cell }.

(** symptom_precaution.csv *)
Record precaution_row : Type :=
  { p_Disease : cell;
    Precaution_1 : cell; Precaution_2 : cell;
    Precaution_3 : cell; Precaution_4 : cell }.

(** Symptom-severity.csv *)
Record severity_row : Type :=
  { Symptom : cell; weight : cell }.

(** medquad.csv *)
Record medquad_row : Type :=
  { question : cell; answer : cell }.

(** The dictionary [dataframes]: a key is present when its file was read. *)
Record dataframes : Type :=
  { dataset : option (list dataset_row);
    symptom_description : option (list description_row);
    symptom_precaution : option (list precaution_row);
    symptom_severity : option (list severity_row);
    medquad : option (list medquad_row) }.

(** The cells of a row of dataset.csv, as iterating the row yields them. *)
Definition row_cells (r : dataset_row) : list cell :=
  Disease r :: Symptoms r.

(** ** Exceptions and results *)

Inductive exn : Type :=
| AttributeError     (* Can only use .str accessor with string values *)
| re_error.          (* the pattern is not a regular expression *)

(** What a computation yields: a value, an exception, or [Unmodelled] when
    its pattern lies outside the modelled fragment of [re]. *)
Inductive result (A : Type) : Type :=
| Ok (a : A)
| Raise (e : exn)
| Unmodelled.

Arguments Ok {A} a.
Arguments Raise {A} e.
Arguments Unmodelled {A}.

(** The run of a query function: the values it passed to [st.write], in
    order, or the exception that left it. *)
Definition run : Type := result (list cell).

(** ** pandas *)

Module Pd.

(** The accessor [Series.str] exists on a column of dtype object: the
    column of an empty table, or a column with a string in it.  A column
    read as numbers or as all missing raises [AttributeError]. *)
Definition has_str_accessor (col : list cell) : bool :=
  match col with
  | [] => true
  | _ => existsb is_str col
  end.

(** One element of [Series.str.lower()]: a non-string becomes [nan]. *)
Definition str_lower (c : cell) : cell :=
  match c with
  | CStr s => CStr (Py.lower s)
  | _ => CNaN
  end.

(** One element of [Series == s]. *)
Definition eq_str (c : cell) (s : string) : bool :=
  match c with
  | CStr t => String.eqb t s
  | _ => false
  end.

(** One element of [Series.str.contains(pat)] for a compiled [pat]:
    [None] is the [nan] that a non-string yields. *)
Definition contains1 (r : Re.regex) (c : cell) : option bool :=
  match c with
  | CStr t => Some (Re.search r t)
  | _ => None
  end.

(** One element of [a & b]: a missing operand counts as [False]. *)
Definition and_fill (a b : option bool) : bool :=
  match a, b with
  | Some x, Some y => x && y
  | _, _ => false
  end.

End Pd.

(** ** collections.Counter *)

Module Counter.

(** A Counter keeps its keys in the order of first insertion. *)
Definition t : Type := list (cell * nat).

Fixpoint incr (k : cell) (c : t) : t :=
  match c with
  | [] => [(k, 1)]
  | (k', n) :: c' =>
      if cell_eqb k k' then (k', S n) :: c' else (k', n) :: incr k c'
  end.

(** [Counter(iterable)] *)
Definition of_list (l : list cell) : t :=
  fold_left (fun c k => incr k c) l [].

Fixpoint insert_desc (x : cell * nat) (l : t) : t :=
  match l with
  | [] => [x]
  | y :: l' =>
      if (snd y <=? snd x)%nat then x :: l else y :: insert_desc x l'
  end.

(** [c.most_common()]: [sorted(c.items(), key=itemgetter(1), reverse=True)],
    a stable sort, so equal counts keep the order of first insertion. *)
Definition most_common (c : t) : t := fold_right insert_desc [] c.

End Counter.

(** ** The query functions of Hello.py *)

Definition clean_symptom (symptom : cell) : string :=
  match symptom with
  | CStr s => Py.lower (Py.strip s)
  | _ => ""
  end.

(** The test [Series.str.lower() == name.lower()] on one key cell. *)
Definition key_matches (name : string) (key : cell) : bool :=
  Pd.eq_str (Pd.str_lower key) (Py.lower name).

Definition display_disease_description
  (disease_name : string) (dfs : dataframes) : run :=
  match symptom_description dfs with
  | Some df =>
      if Pd.has_str_accessor (map d_Disease df) then
        let filtered_df :=
          filter (fun r => key_matches disease_name (d_Disease r)) df in
        match filtered_df with
        | r :: _ =>
            Ok [CStr ("Disease Description for '"
                      ++ Py.capitalize disease_name ++ "':");
                Description r]
        | [] =>
            Ok [CStr ("Disease '" ++ disease_name
                      ++ "' not found in the dataset.")]
        end
      else Raise AttributeError
  | None => Ok [CStr "Symptom description dataset not loaded."]
  end.

(** The query symptoms of [match_symptoms]. *)
Definition user_symptoms (symptoms_input : string) : list string :=
  map (fun symptom => clean_symptom (CStr symptom))
      (Py.split "," symptoms_input).

(** The lambda of [match_symptoms]: some cell of the row cleans to one of
    the query symptoms. *)
Definition row_matches (user_symptoms_list : list string) (row : dataset_row)
  : bool :=
  existsb (fun symptom => Py.mem (clean_symptom symptom) user_symptoms_list)
          (row_cells row).

Definition disease_line (total : nat) (entry : cell * nat) : cell :=
  let (disease, count) := entry in
  CStr ("- " ++ py_str disease ++ " ("
        ++ Fmt.format_2f (Fmt.percentage count total) ++ "%)").

Definition match_symptoms (symptoms_input : string) (dfs : dataframes) : run :=
  let user_symptoms_list := user_symptoms symptoms_input in
  match dataset dfs with
  | Some dataset_df =>
      let matched_diseases :=
        filter (row_matches user_symptoms_list) dataset_df in
      match matched_diseases with
      | _ :: _ =>
          let disease_counts :=
            Counter.of_list (map Disease matched_diseases) in
          Ok (CStr "Potential diseases associated with your symptoms:"
              :: map (disease_line (length matched_diseases))
                     (Counter.most_common disease_counts))
      | [] =>
          Ok [CStr "No matching diseases found for the provided symptoms."]
      end
  | None => Ok [CStr "Dataset not loaded."]
  end.

Definition bullet (c : cell) : cell := CStr ("- " ++ py_str c).

Definition display_precautions
  (disease_name : string) (dfs : dataframes) : run :=
  match symptom_precaution dfs with
  | Some df =>
      if Pd.has_str_accessor (map p_Disease df) then
        let filtered_df :=
          filter (fun r => key_matches disease_name (p_Disease r)) df in
        match filtered_df with
        | r :: _ =>
            let precautions :=
              filter is_str [Precaution_1 r; Precaution_2 r;
                             Precaution_3 r; Precaution_4 r] in
            match precautions with
            | _ :: _ =>
                Ok (CStr ("Precautions for "
                          ++ Py.capitalize disease_name ++ ":")
                    :: map bullet precautions)
            | [] =>
                Ok [CStr ("No precautions listed for '" ++ disease_name
                          ++ "' in the dataset.")]
            end
        | [] =>
            Ok [CStr ("Disease '" ++ disease_name
                      ++ "' not found in the dataset.")]
        end
      else Raise AttributeError
  | None => Ok [CStr "Symptom precaution dataset not loaded."]
  end.

Definition display_symptom_severity
  (symptom_name : string) (dfs : dataframes) : run :=
  match symptom_severity dfs with
  | Some df =>
      if Pd.has_str_accessor (map Symptom df) then
        let filtered_df :=
          filter (fun r => key_matches symptom_name (Symptom r)) df in
        match filtered_df with
        | r :: _ =>
            Ok [CStr ("Severity of " ++ Py.capitalize symptom_name
                      ++ ": " ++ py_str (weight r))]
        | [] =>
            Ok [CStr ("Symptom '" ++ symptom_name
                      ++ "' not found in the dataset.")]
        end
      else Raise AttributeError
  | None => Ok [CStr "Symptom severity dataset not loaded."]
  end.

(** [Series.str.contains(pat)] over a column already lowered: the pattern is
    compiled before any element is looked at. *)
Definition str_contains (pat : string) (col : list cell)
  : result (list (option bool)) :=
  match Re.compile pat with
  | Re.Compiled r => Ok (map (Pd.contains1 r) col)
  | Re.Invalid => Raise re_error
  | Re.Unsupported => Unmodelled
  end.

(** The rows selected by
    [df[df['question'].str.lower().str.contains(disease_name)
        & df['question'].str.lower().str.contains(keyword)]]. *)
Definition medquad_select
  (disease_name keyword : string) (df : list medquad_row)
  : result (list medquad_row) :=
  if Pd.has_str_accessor (map question df) then
    let lowered := map (fun r => Pd.str_lower (question r)) df in
    match str_contains disease_name lowered with
    | Ok by_name =>
        match str_contains keyword lowered with
        | Ok by_keyword =>
            let mask := map (fun p => Pd.and_fill (fst p) (snd p))
                            (combine by_name by_keyword) in
            Ok (map fst (filter snd (combine df mask)))
        | Raise e => Raise e
        | Unmodelled => Unmodelled
        end
    | Raise e => Raise e
    | Unmodelled => Unmodelled
    end
  else Raise AttributeError.

Definition display_disease_causes
  (disease_name : string) (dfs : dataframes) : run :=
  match medquad dfs with
  | Some medquad_df =>
      match medquad_select disease_name "cause" medquad_df with
      | Ok matched_row =>
          match map answer matched_row with
          | (_ :: _) as causes =>
              Ok (CStr ("Causes of " ++ Py.capitalize disease_name
                        ++ " (from 'medquad' dataset):")
                  :: map bullet causes)
          | [] =>
              Ok [CStr ("No causes found for '" ++ disease_name
                        ++ "' in the 'medquad' dataset.")]
          end
      | Raise e => Raise e
      | Unmodelled => Unmodelled
      end
  | None => Ok [CStr "Medquad dataset not loaded."]
  end.

Definition display_disease_diagnosis
  (disease_name : string) (dfs : dataframes) : run :=
  match medquad dfs with
  | Some medquad_df =>
      match medquad_select disease_name "diagnose" medquad_df with
      | Ok matched_row =>
          match map answer matched_row with
          | (_ :: _) as diagnoses =>
              Ok (CStr ("Diagnosis of " ++ Py.capitalize disease_name
                        ++ " (from 'medquad' dataset):")
                  :: map bullet diagnoses)
          | [] =>
              Ok [CStr ("No diagnosis found for '" ++ disease_name
                        ++ "' in the 'medquad' dataset.")]
          end
      | Raise e => Raise e
      | Unmodelled => Unmodelled
      end
  | None => Ok [CStr "Medquad dataset not loaded."]
  end.

Definition display_disease_research
  (disease_name : string) (dfs : dataframes) : run :=
  match medquad dfs with
  | Some medquad_df =>
      match medquad_select disease_name "research" medquad_df with
      | Ok matched_row =>
          match map answer matched_row with
          | (_ :: _) as research_info =>
              Ok (CStr ("Research about " ++ Py.capitalize disease_name
                        ++ " (from 'medquad' dataset):")
                  :: map bullet research_info)
          | [] =>
              Ok [CStr ("No research information found for '" ++ disease_name
                        ++ "' in the 'medquad' dataset.")]
          end
      | Raise e => Raise e
      | Unmodelled => Unmodelled
      end
  | None => Ok [CStr "Medquad dataset not loaded."]
  end.

(** A store in which no file was read. *)
Definition no_tables : dataframes :=
  {| dataset := None; symptom_description := None;
     symptom_precaution := None; symptom_severity := None;
     medquad := None |}.

(** ** os.path, for POSIX paths *)

Module Path.

Definition sep : ascii := "/".

(** [s.endswith('/')] *)
Fixpoint ends_with_sep (s : string) : bool :=
  match s with
  | EmptyString => false
  | String c EmptyString => Ascii.eqb c sep
  | String _ s' => ends_with_sep s'
  end.

Definition starts_with_sep (s : string) : bool :=
  match s with
  | String c _ => Ascii.eqb c sep
  | EmptyString => false
  end.

(** [os.path.join(a, b)] *)
Definition join (a b : string) : string :=
  if starts_with_sep b then b
  else if match a with EmptyString => true | _ => ends_with_sep a end
       then a ++ b
       else a ++ String sep b.

(** [os.path.basename(p)]: what follows the last separator. *)
Definition basename (p : string) : string :=
  last (Py.split sep p) EmptyString.

(** [s.rpartition(a)] without the separator: the text before and after the
    last [a], when there is one. *)
Fixpoint rsplit_at (a : ascii) (s : string) : option (string * string) :=
  match s with
  | EmptyString => None
  | String c s' =>
      match rsplit_at a s' with
      | Some (l, r) => Some (String c l, r)
      | None => if Ascii.eqb c a then Some (EmptyString, s') else None
      end
  end.

Fixpoint all_dots (s : string) : bool :=
  match s with
  | EmptyString => true
  | String c s' => Ascii.eqb c "." && all_dots s'
  end.

Fixpoint has_sep (s : string) : bool :=
  match s with
  | EmptyString => false
  | String c s' => Ascii.eqb c sep || has_sep s'
  end.

(** [os.path.splitext(p)[0]]: the extension starts at the last dot of the
    last component, unless only dots stand before it in that component. *)
Definition splitext_root (p : string) : string :=
  match rsplit_at "." p with
  | None => p
  | Some (root, ext) =>
      if has_sep ext then p
      else if all_dots (basename root) then p
      else root
  end.

End Path.

(** ** Reading the tables at start-up *)

(** The five files of Hello.py, in the order in which they are read. *)
Definition filenames : list string :=
  ["dataset.csv"; "symptom_description.csv"; "symptom_precaution.csv";
   "Symptom-severity.csv"; "medquad.csv"].

Definition filepaths (script_dir : string) : list string :=
  map (Path.join script_dir) filenames.

(** The key under which a file is stored. *)
Definition df_name (filepath : string) : string :=
  Path.splitext_root (Path.basename filepath).

Section Loading.

(** The DataFrames, and [pd.read_csv] as the file system answers it. *)
Variable DataFrame : Type.

Inductive read_result : Type :=
| Frame (df : DataFrame)
| RaisesFileNotFoundError
| RaisesEmptyDataError
| RaisesParserError (e : string)
| RaisesOther (e : string).     (* any exception the loop does not catch *)

Variable read_csv : string -> read_result.

(** A Python dict with string keys, in insertion order. *)
Definition dict : Type := list (string * DataFrame).

(** [d[k] = v] *)
Fixpoint setitem (k : string) (v : DataFrame) (d : dict) : dict :=
  match d with
  | [] => [(k, v)]
  | (k', v') :: d' =>
      if String.eqb k k' then (k', v) :: d' else (k', v') :: setitem k v d'
  end.

(** [d.get(k)]; [k in d] is [getitem k d <> None]. *)
Fixpoint getitem (k : string) (d : dict) : option DataFrame :=
  match d with
  | [] => None
  | (k', v) :: d' => if String.eqb k k' then Some v else getitem k d'
  end.

(** The dictionary [dataframes] and the lines written so far. *)
Record loading : Type := { frames : dict; written : list string }.

Inductive load_outcome : Type :=
| Finished (s : loading)
| Aborted (e : string) (s : loading).

(** The loop over [filepaths]. *)
Fixpoint load_files (paths : list string) (s : loading) : load_outcome :=
  match paths with
  | [] => Finished s
  | filepath :: rest =>
      let name := df_name filepath in
      match read_csv filepath with
      | Frame df =>
          load_files rest
            {| frames := setitem name df (frames s);
               written := written s
                 ++ ["Successfully loaded " ++ name ++ " from " ++ filepath] |}
      | RaisesFileNotFoundError =>
          load_files rest
            {| frames := frames s;
               written := written s ++ ["File not found: " ++ filepath] |}
      | RaisesEmptyDataError =>
          load_files rest
            {| frames := frames s;
               written := written s ++ ["Empty DataFrame: " ++ filepath] |}
      | RaisesParserError e =>
          load_files rest
            {| frames := frames s;
               written := written s
                 ++ ["Error parsing CSV file " ++ filepath ++ ": " ++ e] |}
      | RaisesOther e => Aborted e s
      end
  end.

Definition load_tables (script_dir : string) : load_outcome :=
  load_files (filepaths script_dir) {| frames := []; written := [] |}.

(** What the file at a path contributes to the dictionary. *)
Definition frame_at (filepath : string) : option DataFrame :=
  match read_csv filepath with
  | Frame df => Some df
  | _ => None
  end.

(** The read of the file does not escape the [try]. *)
Definition caught (filepath : string) : Prop :=
  forall e, read_csv filepath <> RaisesOther e.

End Loading.

Arguments Frame {DataFrame} _.
Arguments RaisesFileNotFoundError {DataFrame}.
Arguments RaisesEmptyDataError {DataFrame}.
Arguments RaisesParserError {DataFrame} _.
Arguments RaisesOther {DataFrame} _.
Arguments setitem {DataFrame} _ _ _.
Arguments getitem {DataFrame} _ _.
Arguments frames {DataFrame} _.
Arguments written {DataFrame} _.
Arguments Finished {DataFrame} _.
Arguments Aborted {DataFrame} _ _.
Arguments load_files {DataFrame} _ _ _.
Arguments load_tables {DataFrame} _ _.
Arguments frame_at {DataFrame} _ _.
Arguments caught {DataFrame} _ _.

(** ** Vocabulary of the statements *)

Section Vocabulary.

Import Re Counter.

(** Every character of the string is white space. *)
Fixpoint all_space (s : string) : bool :=
  match s with
  | EmptyString => true
  | String c s' => Py.isspace c && all_space s'
  end.

(** The string does not begin with white space. *)
Definition clean_start (s : string) : Prop :=
  forall c t, s = String c t -> Py.isspace c = false.

(** The string does not end with white space. *)
Definition clean_end (s : string) : Prop :=
  forall t c, s = t ++ String c "" -> Py.isspace c = false.

(** The count stored for a key, 0 when the key is absent. *)
Fixpoint lookup (k : cell) (c : Counter.t) : nat :=
  match c with
  | [] => 0
  | (k', n) :: c' => if cell_eqb k k' then n else lookup k c'
  end.

(** The sum of all counts. *)
Definition total (c : Counter.t) : nat := list_sum (map snd c).

Definition positive_counts (c : Counter.t) : Prop :=
  Forall (fun e => 0 < snd e) c.

(** Larger counts first. *)
Definition ranked_before (x y : cell * nat) : Prop := snd y <= snd x.

Definition report_header : cell :=
  CStr "Potential diseases associated with your symptoms:".

(** What [match_symptoms] writes once the Disease cells of the matched rows
    are known. *)
Definition report (diseases : list cell) : list cell :=
  report_header
  :: map (disease_line (length diseases)) (most_common (of_list diseases)).

Definition common_cold : cell := CStr "Common Cold".
Definition flu : cell := CStr "Flu".

(** The three messages of a successful exact-match lookup, from the row
    that answers it. *)
Definition description_of (disease_name : string) (r : description_row)
  : list cell :=
  [CStr ("Disease Description for '" ++ Py.capitalize disease_name ++ "':");
   Description r].

Definition precautions_of (disease_name : string) (r : precaution_row)
  : list cell :=
  match filter is_str [Precaution_1 r; Precaution_2 r;
                       Precaution_3 r; Precaution_4 r] with
  | [] => [CStr ("No precautions listed for '" ++ disease_name
                 ++ "' in the dataset.")]
  | precautions =>
      CStr ("Precautions for " ++ Py.capitalize disease_name ++ ":")
      :: map bullet precautions
  end.

Definition severity_of (symptom_name : string) (r : severity_row)
  : list cell :=
  [CStr ("Severity of " ++ Py.capitalize symptom_name ++ ": "
         ++ py_str (weight r))].

(** The characters with a meaning of their own in a pattern. *)
Definition is_special (c : ascii) : bool :=
  Ascii.eqb c "\" || Ascii.eqb c "(" || Ascii.eqb c ")" || Ascii.eqb c "|"
  || Ascii.eqb c "*" || Ascii.eqb c "+" || Ascii.eqb c "?" || Ascii.eqb c "."
  || Ascii.eqb c "[" || Ascii.eqb c "{" || Ascii.eqb c "^" || Ascii.eqb c "$".

(** A pattern that is plain text. *)
Fixpoint plain (s : string) : bool :=
  match s with
  | EmptyString => true
  | String c s' => negb (is_special c) && plain s'
  end.

(** The regular expression of a plain pattern. *)
Fixpoint lit_of (s : string) : regex :=
  match s with
  | EmptyString => Eps
  | String c s' =>
      match lit_of s' with
      | Eps => Chr c
      | r => Cat (Chr c) r
      end
  end.

Fixpoint push_all (s : string) (top : frame) : frame :=
  match s with
  | EmptyString => top
  | String c s' => push_all s' (push_item top (Chr c))
  end.

(** The row test of a substring lookup once both patterns are compiled. *)
Definition question_matches (by_name by_keyword : Re.regex) (r : medquad_row)
  : bool :=
  match question r with
  | CStr q => Re.search by_name (Py.lower q) && Re.search by_keyword (Py.lower q)
  | _ => false
  end.

(** [sep.join(parts)] for a one-character separator. *)
Fixpoint join (sep : ascii) (parts : list string) : string :=
  match parts with
  | [] => ""
  | [x] => x
  | x :: rest => x ++ String sep (join sep rest)
  end.

(** The characters of a string. *)
Definition chars (s : string) : list ascii := list_ascii_of_string s.

(** The number of occurrences of a character in a string. *)
Fixpoint count_char (a : ascii) (s : string) : nat :=
  match s with
  | EmptyString => 0
  | String c s' => (if Ascii.eqb c a then 1 else 0) + count_char a s'
  end.

(** A row with every cell replaced by its clean form. *)
Definition clean_row (row : dataset_row) : dataset_row :=
  {| Disease := CStr (clean_symptom (Disease row));
     Symptoms := map (fun c => CStr (clean_symptom c)) (Symptoms row) |}.


(** [a] stands somewhere before [b] in the list. *)
Definition stands_before {A : Type} (a b : A) (l : list A) : Prop :=
  exists p q r, l = (p ++ a :: q ++ b :: r)%list.


(** The row test of a substring lookup for patterns that are plain text. *)
Definition holds_both (disease_name keyword : string) (r : medquad_row)
  : bool :=
  match question r with
  | CStr q => Py.contains disease_name (Py.lower q)
              && Py.contains keyword (Py.lower q)
  | _ => false
  end.

(** What a substring lookup writes for the answers it selected. *)
Definition answers_or (not_found header : string) (answers : list cell)
  : list cell :=
  match answers with
  | [] => [CStr not_found]
  | _ => CStr header :: map bullet answers
  end.

(** The string holds an upper-case letter. *)
Definition has_upper (s : string) : bool := existsb Py.isupper (chars s).

(** Texts that [re.compile] refuses: a leading quantifier, a closing
    parenthesis after plain text, an opening parenthesis between plain
    texts, a backslash at the end of plain text. *)
Inductive malformed : string -> Prop :=
| leading_quantifier (q : ascii) (rest : string) :
    is_quantifier q = true -> malformed (String q rest)
| stray_closing (a rest : string) :
    plain a = true -> malformed (a ++ ")" ++ rest)
| unclosed_group (a b : string) :
    plain a = true -> plain b = true -> malformed (a ++ "(" ++ b)
| trailing_backslash (a : string) :
    plain a = true -> malformed (a ++ "\").


(** The line that the loading loop writes for a file. *)
Definition load_line {DataFrame : Type}
  (read_csv : string -> read_result DataFrame) (filepath : string) : string :=
  match read_csv filepath with
  | Frame _ =>
      "Successfully loaded " ++ df_name filepath ++ " from " ++ filepath
  | RaisesFileNotFoundError => "File not found: " ++ filepath
  | RaisesEmptyDataError => "Empty DataFrame: " ++ filepath
  | RaisesParserError e =>
      "Error parsing CSV file " ++ filepath ++ ": " ++ e
  | RaisesOther _ => ""
  end.

(** What the dictionary holds under [k] after the loop ran over [paths],
    when it held [init] before: the last frame read from a path of that
    name. *)
Definition after_files {DataFrame : Type}
  (read_csv : string -> read_result DataFrame) (paths : list string)
  (k : string) (init : option DataFrame) : option DataFrame :=
  fold_left
    (fun acc p =>
       if String.eqb k (df_name p) then
         match frame_at read_csv p with
         | Some df => Some df
         | None => acc
         end
       else acc)
    paths init.


(** Every character of the text is an ASCII character. *)
Definition ascii_text (s : string) : bool := forallb Re.is_ascii (chars s).

(** The cell is a string. *)
Definition text_cell (c : cell) : Prop := is_str c = true.

(** A cell as pandas types it within its column: a number is a Python
    integer only in a column of 64-bit integers; with a blank or a decimal
    in the column the numbers are floats, which [cell] does not hold. *)
Definition int64_cell (c : cell) : Prop :=
  exists z, c = CInt z /\ (- 2 ^ 63 <= z < 2 ^ 63)%Z.

Definition typed_in (col : list cell) (c : cell) : Prop :=
  is_str c = true \/ c = CNaN \/ Forall int64_cell col.


End Vocabulary.

Section RationalShares.

Open Scope Q_scope.

(** [count / total * 100] as a rational number. *)
Definition share (matched_rows count : nat) : Q :=
  inject_Z (Z.of_nat count) / inject_Z (Z.of_nat matched_rows) * 100.


(** A rational rounded to two decimals the way [.2f] rounds: to the nearest
    hundredth, ties to the even one. *)
Definition round2 (q : Q) : Q :=
  Fmt.div_half_even (100 * Qnum q) (Z.pos (Qden q)) # 100.

End RationalShares.

(** ** The model at concrete inputs *)

Example lower_ex : Py.lower "Common Cold" = "common cold".
Proof. reflexivity. Qed.

Example strip_ex : Py.strip "  a b  " = "a b".
Proof. reflexivity. Qed.

Example split_ex : Py.split "," "cough, fever,," = ["cough"; " fever"; ""; ""].
Proof. reflexivity. Qed.

Example split_empty_ex : Py.split "," "" = [""].
Proof. reflexivity. Qed.

Example compile_paren_ex : Re.compile "(" = Re.Invalid.
Proof. reflexivity. Qed.

Example search_ex :
  match Re.compile "(flu|cold)s?" with
  | Re.Compiled r => Re.search r "what causes colds?"
  | _ => false
  end = true.
Proof. reflexivity. Qed.

Example format_ex : Fmt.format_2f (Fmt.percentage 3 4) = "75.00".
Proof. reflexivity. Qed.

Example format_ex2 : Fmt.format_2f (Fmt.percentage 1 3) = "33.33".
Proof. reflexivity. Qed.

Example format_ex3 : Fmt.format_2f (Fmt.percentage 1 800) = "0.12".
Proof. reflexivity. Qed.

Example format_ex4 : Fmt.format_2f (Fmt.percentage 2 3) = "66.67".
Proof. reflexivity. Qed.

Example format_ex5 : Fmt.format_2f (Fmt.percentage 1 160) = "0.62".
Proof. reflexivity. Qed.

Example precautions_ex :
  display_precautions "flu"
    {| dataset := None; symptom_description := None;
       symptom_precaution :=
         Some [{| p_Disease := CStr "Flu";
                  Precaution_1 := CStr "rest"; Precaution_2 := CNaN;
                  Precaution_3 := CStr "drink fluids";
                  Precaution_4 := CNaN |}];
       symptom_severity := None; medquad := None |}
  = Ok [CStr "Precautions for Flu:"; CStr "- rest"; CStr "- drink fluids"].
Proof. reflexivity. Qed.

Example severity_ex :
  display_symptom_severity "Itching"
    {| dataset := None; symptom_description := None;
       symptom_precaution := None;
       symptom_severity := Some [{| Symptom := CStr "itching";
                                    weight := CInt 1 |}];
       medquad := None |}
  = Ok [CStr "Severity of Itching: 1"].
Proof. reflexivity. Qed.

Example causes_ex :
  display_disease_causes "glaucoma"
    {| dataset := None; symptom_description := None;
       symptom_precaution := None; symptom_severity := None;
       medquad := Some [{| question := CStr "What causes Glaucoma ?";
                           answer := CStr "Pressure in the eye." |};
                        {| question := CStr "What is Glaucoma ?";
                           answer := CStr "An eye disease." |}] |}
  = Ok [CStr "Causes of Glaucoma (from 'medquad' dataset):";
        CStr "- Pressure in the eye."].
Proof. reflexivity. Qed.

Example counter_ex :
  Counter.most_common
    (Counter.of_list [CStr "a"; CStr "b"; CStr "c"; CStr "b"; CStr "c"])
  = [(CStr "b", 2); (CStr "c", 2); (CStr "a", 1)].
Proof. reflexivity. Qed.

(** ** Facts about the string functions *)

Section StringFacts.

Lemma lstrip_split (s : string) :
  exists l, s = l ++ Py.lstrip s /\ all_space l = true.
Proof.
  induction s as [|c s IH]; simpl.
  - exists ""; auto.
  - destruct (Py.isspace c) eqn:Hc.
    + destruct IH as [l [E Hl]].
      exists (String c l); split; simpl; [congruence | now rewrite Hc, Hl].
    + exists ""; auto.
Qed.

Lemma lstrip_clean_start (s : string) : clean_start (Py.lstrip s).
Proof.
  induction s as [|c s IH]; simpl; intros a t E.
  - discriminate.
  - destruct (Py.isspace c) eqn:Hc.
    + eapply IH; eauto.
    + congruence.
Qed.

Lemma rstrip_split (s : string) :
  exists r, s = Py.rstrip s ++ r /\ all_space r = true.
Proof.
  induction s as [|c s IH]; simpl.
  - exists ""; auto.
  - destruct IH as [r [E Hr]].
    destruct (Py.rstrip s) as [|b u] eqn:Hs.
    + simpl in E; subst r.
      destruct (Py.isspace c) eqn:Hc.
      * exists (String c s); split; simpl; [reflexivity | now rewrite Hc, Hr].
      * exists s; auto.
    + exists r; split; auto.
      simpl in *; congruence.
Qed.

Lemma rstrip_clean_end (s : string) : clean_end (Py.rstrip s).
Proof.
  induction s as [|a s IH]; simpl; intros t c E.
  - destruct t; discriminate.
  - destruct (Py.rstrip s) as [|b u] eqn:Hs.
    + destruct (Py.isspace a) eqn:Ha.
      * destruct t; discriminate.
      * destruct t as [|x t]; simpl in E.
        -- congruence.
        -- destruct t; discriminate.
    + destruct t as [|x t]; simpl in E.
      * discriminate.
      * injection E as _ E. eapply IH; eauto.
Qed.

Lemma rstrip_clean_start (s : string) :
  clean_start s -> clean_start (Py.rstrip s).
Proof.
  intros H c t E.
  destruct s as [|a s]; simpl in E; [discriminate|].
  destruct (Py.rstrip s).
  - destruct (Py.isspace a) eqn:Ha; [discriminate|].
    injection E as -> _. exact Ha.
  - injection E as -> _. eapply H; eauto.
Qed.

Lemma lower_char_not_upper (c : ascii) : Py.isupper (Py.lower_char c) = false.
Proof.
  destruct c as [[] [] [] [] [] [] [] []]; reflexivity.
Qed.

Lemma lower_length (s : string) : String.length (Py.lower s) = String.length s.
Proof.
  induction s; simpl; congruence.
Qed.

Lemma lower_get (s : string) (i : nat) :
  String.get i (Py.lower s) = option_map Py.lower_char (String.get i s).
Proof.
  revert i; induction s as [|c s IH]; intros [|i]; simpl; auto.
Qed.

Lemma all_space_strip (s : string) : all_space s = true -> Py.strip s = "".
Proof.
  unfold Py.strip.
  induction s as [|c s IH]; simpl; auto.
  intros H. apply andb_prop in H as [Hc Hs]. rewrite Hc. auto.
Qed.

Lemma strip_empty_all_space (s : string) :
  Py.strip s = "" -> all_space s = true.
Proof.
  intros E.
  destruct (lstrip_split s) as [l [E1 Hl]].
  destruct (rstrip_split (Py.lstrip s)) as [r [E2 Hr]].
  fold (Py.strip s) in E2. rewrite E in E2. simpl in E2.
  rewrite E1, E2.
  clear -Hl Hr. induction l as [|c l IH]; simpl in *; auto.
  apply andb_prop in Hl as [-> Hl]. simpl. auto.
Qed.

End StringFacts.

(** ** The text normalizer *)

(** C9: [clean_symptom] maps a string of ASCII characters to its stripped
    and lowered form: the input is white space, then the stripped core, then
    white space; the core neither begins nor ends with white space; the
    result is the core with each character lowered, so it has no upper-case
    letter.  Every other cell, missing or numeric, maps to the empty string.
    The function is total. *)
Theorem clean_symptom_normalizes :
  (forall s : string,
      ascii_text s = true ->
      clean_symptom (CStr s) = Py.lower (Py.strip s)
      /\ (exists l r, s = l ++ Py.strip s ++ r
                      /\ all_space l = true /\ all_space r = true)
      /\ clean_start (Py.strip s) /\ clean_end (Py.strip s)
      /\ String.length (clean_symptom (CStr s)) = String.length (Py.strip s)
      /\ (forall i, String.get i (clean_symptom (CStr s))
                    = option_map Py.lower_char (String.get i (Py.strip s)))
      /\ (forall i c, String.get i (clean_symptom (CStr s)) = Some c ->
                      Py.isupper c = false))
  /\ (forall c : cell, is_str c = false -> clean_symptom c = "")
  /\ clean_symptom CNaN = ""
  /\ (forall z, clean_symptom (CInt z) = "").
Proof.
  split; [|repeat split].
  - intros s _. split; [reflexivity|]. split.
    { destruct (lstrip_split s) as [l [E1 Hl]].
      destruct (rstrip_split (Py.lstrip s)) as [r [E2 Hr]].
      exists l, r. repeat split; auto.
      unfold Py.strip. now rewrite <- E2. }
    split; [apply rstrip_clean_start, lstrip_clean_start|].
    split; [apply rstrip_clean_end|].
    split; [apply lower_length|].
    split; [intros i; apply lower_get|].
    intros i c. simpl. rewrite lower_get.
    destruct (String.get i (Py.strip s)); simpl; [|discriminate].
    intros [= <-]. apply lower_char_not_upper.
  - intros [s| |]; simpl; auto; discriminate.
Qed.

(** The cell "  High Fever " cleans to "high fever", whose first character
    is not an upper-case letter; the number 3 cleans to the empty string. *)
Lemma clean_symptom_normalizes_witness :
  clean_symptom (CStr "  High Fever ") = "high fever"
  /\ Py.isupper "h"%char = false
  /\ clean_symptom (CInt 3) = "".
Proof.
  split; [|split].
  - apply (proj1 (proj1 clean_symptom_normalizes "  High Fever " eq_refl)).
  - apply (proj2 (proj2 (proj2 (proj2 (proj2 (proj2
             (proj1 clean_symptom_normalizes "  High Fever " eq_refl))))))
             0 "h"%char).
    reflexivity.
  - apply (proj1 (proj2 clean_symptom_normalizes) (CInt 3)). reflexivity.
Defined.

(** ** The symptom matcher: which rows match *)

Section Matching.

Lemma mem_In (x : string) (l : list string) : Py.mem x l = true <-> In x l.
Proof.
  unfold Py.mem. rewrite existsb_exists. split.
  - intros [y [Hy E]]. apply String.eqb_eq in E. now subst.
  - intros H. exists x. split; auto. apply String.eqb_refl.
Qed.

Lemma row_matches_iff (l : list string) (row : dataset_row) :
  row_matches l row = true <->
  exists c, In c (row_cells row) /\ In (clean_symptom c) l.
Proof.
  unfold row_matches. rewrite existsb_exists.
  split; intros [c [Hc H]]; exists c; split; auto; now apply mem_In.
Qed.

Lemma clean_symptom_not_str (c : cell) : is_str c = false -> clean_symptom c = "".
Proof.
  destruct c; simpl; auto; discriminate.
Qed.

(** A row matches through a populated cell only, once no query symptom is
    the empty string. *)
Lemma row_matches_populated (l : list string) (row : dataset_row) :
  ~ In "" l ->
  (row_matches l row = true <->
   exists s, In (CStr s) (row_cells row) /\ In (clean_symptom (CStr s)) l).
Proof.
  intros Hne. rewrite row_matches_iff. split.
  - intros [c [Hc H]]. destruct c as [s| |].
    + exists s; auto.
    + simpl in H; contradiction.
    + simpl in H; contradiction.
  - intros [s [Hc H]]. exists (CStr s); auto.
Qed.

Lemma lower_empty (s : string) : Py.lower s = "" <-> s = "".
Proof.
  destruct s; simpl; split; auto; discriminate.
Qed.

(** A string cleans to the empty string exactly when it is white space. *)
Lemma clean_symptom_empty (s : string) :
  clean_symptom (CStr s) = "" <-> all_space s = true.
Proof.
  simpl. rewrite lower_empty. split.
  - apply strip_empty_all_space.
  - apply all_space_strip.
Qed.

Lemma split_not_nil (sep : ascii) (s : string) : Py.split sep s <> [].
Proof.
  destruct s as [|c s]; simpl; [discriminate|].
  destruct (Ascii.eqb c sep); [discriminate|].
  destruct (Py.split sep s); discriminate.
Qed.

(** Once every token of the input is white space, the empty string is a
    query symptom, and every row with a missing, numeric or blank cell
    matches. *)
Lemma blank_input_matches (symptoms_input : string) (row : dataset_row) :
  (forall token, In token (Py.split "," symptoms_input) ->
                 all_space token = true) ->
  (exists c, In c (row_cells row) /\ clean_symptom c = "") ->
  row_matches (user_symptoms symptoms_input) row = true.
Proof.
  intros Hblank [c [Hc E]]. apply row_matches_iff.
  exists c. split; [exact Hc|]. rewrite E. unfold user_symptoms.
  destruct (Py.split "," symptoms_input) as [|token l] eqn:S.
  - now apply split_not_nil in S.
  - left. apply clean_symptom_empty. apply Hblank. now left.
Qed.

Lemma existsb_app_false {A : Type} (f : A -> bool) (l l' : list A) :
  existsb f l' = false -> existsb f (l ++ l') = existsb f l.
Proof.
  intros H. rewrite existsb_app, H. apply orb_false_r.
Qed.

End Matching.



(** C3 as stated fails: at the input "flu" the row (Flu; cough, missing)
    matches and is reported, though none of its symptom slots cleans to a
    query symptom. *)
Lemma symptom_slots_only_counterexample :
  let row := {| Disease := CStr "Flu"; Symptoms := [CStr "cough"; CNaN] |} in
  let dfs := {| dataset := Some [row]; symptom_description := None;
                symptom_precaution := None; symptom_severity := None;
                medquad := None |} in
  row_matches (user_symptoms "flu") row = true
  /\ (forall c, In c (Symptoms row) -> ~ In (clean_symptom c) (user_symptoms "flu"))
  /\ match_symptoms "flu" dfs
     = Ok [CStr "Potential diseases associated with your symptoms:";
           CStr "- Flu (100.00%)"].
Proof.
  intros row dfs. split; [reflexivity|]. split; [|reflexivity].
  intros c [<- | [<- | []]]; simpl; intros [E | []]; discriminate.
Qed.

(** C3, amended: every row of the table is put to the test, whatever the
    number of its populated slots.  For an input none of whose tokens cleans
    to the empty string, a row matches exactly when one of its string cells,
    a symptom slot or the Disease cell, cleans to a query symptom; a missing
    or numeric cell never makes it match, and appending such cells to a row
    leaves the test unchanged. *)
Theorem populated_cells_decide :
  forall (symptoms_input : string),
    ~ In "" (user_symptoms symptoms_input) ->
    (forall rows row,
        In row (filter (row_matches (user_symptoms symptoms_input)) rows)
        <-> In row rows /\ row_matches (user_symptoms symptoms_input) row = true)
    /\ (forall row,
           row_matches (user_symptoms symptoms_input) row = true <->
           exists s, In (CStr s) (row_cells row)
                     /\ In (clean_symptom (CStr s)) (user_symptoms symptoms_input))
    /\ (forall c, is_str c = false ->
                  Py.mem (clean_symptom c) (user_symptoms symptoms_input) = false)
    /\ (forall d slots missing,
           forallb (fun c => negb (is_str c)) missing = true ->
           row_matches (user_symptoms symptoms_input)
                       {| Disease := d; Symptoms := slots ++ missing |}
           = row_matches (user_symptoms symptoms_input)
                         {| Disease := d; Symptoms := slots |}).
Proof.
  intros input Hne.
  assert (Hmiss : forall c, is_str c = false ->
            Py.mem (clean_symptom c) (user_symptoms input) = false).
  { intros c Hc. rewrite (clean_symptom_not_str c Hc).
    destruct (Py.mem "" (user_symptoms input)) eqn:E; auto.
    apply mem_In in E. contradiction. }
  split; [intros; apply filter_In|].
  split; [intros; now apply row_matches_populated|].
  split; [exact Hmiss|].
  intros d slots missing Hall.
  unfold row_matches, row_cells. simpl. f_equal.
  apply existsb_app_false.
  induction missing as [|c missing IH]; simpl in *; auto.
  apply andb_prop in Hall as [Hc Hall].
  rewrite (Hmiss c), IH; auto.
  now destruct (is_str c).
Qed.

(** At the input "cough, fever" the row (Flu; fever, missing) matches through
    its slot "fever", and the missing slot plays no part. *)
Lemma populated_cells_decide_witness :
  ~ In "" (user_symptoms "cough, fever")
  /\ row_matches (user_symptoms "cough, fever")
                 {| Disease := CStr "Flu"; Symptoms := [CStr "Fever "] ++ [CNaN] |}
     = row_matches (user_symptoms "cough, fever")
                   {| Disease := CStr "Flu"; Symptoms := [CStr "Fever "] |}.
Proof.
  assert (H : ~ In "" (user_symptoms "cough, fever")).
  { simpl. intros [E | [E | []]]; discriminate. }
  split; [exact H|].
  apply (proj2 (proj2 (proj2 (populated_cells_decide "cough, fever" H)))).
  reflexivity.
Defined.

(** C1 at the empty input: the only query symptom is the empty string, which
    is also what a missing slot cleans to, so the row is reported. *)
Theorem empty_input_reports_disease :
  let row := {| Disease := CStr "Flu"; Symptoms := [CStr "cough"; CNaN] |} in
  let dfs := {| dataset := Some [row]; symptom_description := None;
                symptom_precaution := None; symptom_severity := None;
                medquad := None |} in
  user_symptoms "" = [""]
  /\ match_symptoms "" dfs
     = Ok [CStr "Potential diseases associated with your symptoms:";
           CStr "- Flu (100.00%)"]
  /\ match_symptoms "" dfs
     <> Ok [CStr "No matching diseases found for the provided symptoms."].
Proof.
  intros row dfs. split; [reflexivity|]. split; [reflexivity|].
  discriminate.
Qed.

(** ** Counting and ranking *)

Section CounterFacts.

Import Counter.

Lemma cell_eqb_eq (a b : cell) : cell_eqb a b = true <-> a = b.
Proof.
  unfold cell_eqb. destruct (cell_eq_dec a b); split; congruence.
Qed.

Lemma cell_eqb_refl (a : cell) : cell_eqb a a = true.
Proof. now apply cell_eqb_eq. Qed.

Lemma lookup_incr (k k' : cell) (c : Counter.t) :
  lookup k (incr k' c)
  = if cell_eqb k k' then S (lookup k c) else lookup k c.
Proof.
  induction c as [|[k0 n] c IH]; simpl.
  - destruct (cell_eqb k k'); reflexivity.
  - destruct (cell_eqb k' k0) eqn:E0; simpl.
    + apply cell_eqb_eq in E0; subst k0.
      destruct (cell_eqb k k'); reflexivity.
    + rewrite IH.
      destruct (cell_eqb k k0) eqn:E1; [|reflexivity].
      apply cell_eqb_eq in E1; subst k0.
      destruct (cell_eqb k k') eqn:E2; [|reflexivity].
      apply cell_eqb_eq in E2; subst k'.
      rewrite cell_eqb_refl in E0; discriminate.
Qed.

Lemma keys_incr (k k' : cell) (c : Counter.t) :
  In k (map fst (incr k' c)) <-> k = k' \/ In k (map fst c).
Proof.
  induction c as [|[k0 n] c IH]; simpl.
  - intuition.
  - destruct (cell_eqb k' k0) eqn:E0; simpl.
    + apply cell_eqb_eq in E0; subst k0. intuition.
    + rewrite IH. intuition.
Qed.

Lemma NoDup_incr (k : cell) (c : Counter.t) :
  NoDup (map fst c) -> NoDup (map fst (incr k c)).
Proof.
  induction c as [|[k0 n] c IH]; simpl; intros H.
  - constructor; [intros []|constructor].
  - inversion H as [|? ? Hnin Hnd]; subst.
    destruct (cell_eqb k k0) eqn:E0; simpl.
    + constructor; auto.
    + constructor; auto.
      rewrite keys_incr. intros [-> | Hin]; [|contradiction].
      rewrite cell_eqb_refl in E0; discriminate.
Qed.

Lemma positive_incr (k : cell) (c : Counter.t) :
  positive_counts c -> positive_counts (incr k c).
Proof.
  unfold positive_counts.
  induction c as [|[k0 n] c IH]; simpl; intros H.
  - repeat constructor.
  - inversion H; subst.
    destruct (cell_eqb k k0); constructor; simpl in *; auto; lia.
Qed.

Lemma total_incr (k : cell) (c : Counter.t) : total (incr k c) = S (total c).
Proof.
  unfold total.
  induction c as [|[k0 n] c IH]; simpl; auto.
  destruct (cell_eqb k k0); simpl; lia.
Qed.

(** The invariant of the loop of [Counter(iterable)]. *)
Lemma fold_incr (l : list cell) (acc : Counter.t) :
  let c := fold_left (fun c k => incr k c) l acc in
  (forall k, lookup k c = lookup k acc + count_occ cell_eq_dec l k)
  /\ (NoDup (map fst acc) -> NoDup (map fst c))
  /\ (positive_counts acc -> positive_counts c)
  /\ total c = total acc + length l
  /\ (forall k, In k (map fst c) <-> In k (map fst acc) \/ In k l).
Proof.
  revert acc. induction l as [|x l IH]; intros acc; simpl.
  - repeat split; auto; intuition.
  - destruct (IH (incr x acc)) as (H1 & H2 & H3 & H4 & H5).
    repeat split.
    + intros k. rewrite H1, lookup_incr.
      destruct (cell_eq_dec x k) as [->|Hne].
      * rewrite cell_eqb_refl. lia.
      * destruct (cell_eqb k x) eqn:E; [|lia].
        apply cell_eqb_eq in E. congruence.
    + intros Hnd. now apply H2, NoDup_incr.
    + intros Hp. now apply H3, positive_incr.
    + rewrite H4, total_incr. lia.
    + rewrite H5, keys_incr. intuition.
    + rewrite H5, keys_incr. intuition.
Qed.

Lemma lookup_In (k : cell) (n : nat) (c : Counter.t) :
  NoDup (map fst c) -> In (k, n) c -> lookup k c = n.
Proof.
  induction c as [|[k0 m] c IH]; simpl; intros Hnd Hin; [contradiction|].
  inversion Hnd as [|? ? Hnin Hnd']; subst.
  destruct Hin as [[= -> ->] | Hin].
  - now rewrite cell_eqb_refl.
  - destruct (cell_eqb k k0) eqn:E.
    + apply cell_eqb_eq in E; subst k0.
      exfalso. apply Hnin. apply in_map_iff. exists (k, n). auto.
    + auto.
Qed.

Lemma In_lookup (k : cell) (c : Counter.t) :
  In k (map fst c) -> In (k, lookup k c) c.
Proof.
  induction c as [|[k0 m] c IH]; simpl; intros Hin; [contradiction|].
  destruct (cell_eqb k k0) eqn:E.
  - apply cell_eqb_eq in E; subst. now left.
  - destruct Hin as [-> | Hin]; [|auto].
    rewrite cell_eqb_refl in E; discriminate.
Qed.

(** What [Counter(l)] holds: one entry per distinct element of [l], with the
    number of its occurrences. *)
Lemma of_list_spec (l : list cell) :
  NoDup (map fst (of_list l))
  /\ (forall k n, In (k, n) (of_list l) <->
                  n = count_occ cell_eq_dec l k /\ 0 < n)
  /\ total (of_list l) = length l.
Proof.
  unfold of_list.
  destruct (fold_incr l []) as (H1 & H2 & H3 & H4 & H5).
  simpl in *.
  assert (Hnd : NoDup (map fst (fold_left (fun c k => incr k c) l [])))
    by (apply H2; constructor).
  split; [exact Hnd|]. split; [|exact H4].
  intros k n. split.
  - intros Hin. split.
    + rewrite <- H1. symmetry. now apply lookup_In.
    + assert (Hp := H3 (Forall_nil _)).
      unfold positive_counts in Hp. rewrite Forall_forall in Hp.
      apply (Hp (k, n) Hin).
  - intros [-> Hpos]. rewrite <- H1. apply In_lookup.
    apply H5. right. apply (count_occ_In cell_eq_dec). lia.
Qed.

Lemma insert_desc_perm (x : cell * nat) (l : Counter.t) :
  Permutation (insert_desc x l) (x :: l).
Proof.
  induction l as [|y l IH]; simpl; auto.
  destruct (snd y <=? snd x)%nat; auto.
  rewrite IH. apply perm_swap.
Qed.

Lemma most_common_perm (c : Counter.t) : Permutation (most_common c) c.
Proof.
  induction c as [|x c IH]; simpl; auto.
  rewrite insert_desc_perm. now constructor.
Qed.

Lemma insert_desc_sorted (x : cell * nat) (l : Counter.t) :
  StronglySorted ranked_before l ->
  StronglySorted ranked_before (insert_desc x l).
Proof.
  induction l as [|y l IH]; simpl; intros H.
  - repeat constructor.
  - inversion H as [|? ? Hs Hall]; subst.
    destruct (snd y <=? snd x)%nat eqn:E.
    + apply Nat.leb_le in E. constructor; auto.
      constructor; [exact E|].
      rewrite Forall_forall in *. intros z Hz.
      unfold ranked_before in *. specialize (Hall z Hz). lia.
    + apply Nat.leb_gt in E. constructor; auto.
      rewrite Forall_forall in *. intros z Hz.
      apply (Permutation_in _ (insert_desc_perm x l)) in Hz.
      destruct Hz as [<- | Hz]; unfold ranked_before in *; [lia|auto].
Qed.

Lemma most_common_sorted (c : Counter.t) :
  StronglySorted ranked_before (most_common c).
Proof.
  induction c as [|x c IH]; simpl.
  - constructor.
  - now apply insert_desc_sorted.
Qed.

(** Equal counts keep the order of first insertion: among the entries of
    any one count, [most_common] changes nothing. *)
Lemma insert_desc_stable (n : nat) (x : cell * nat) (l : Counter.t) :
  filter (fun e => (snd e =? n)%nat) (insert_desc x l)
  = filter (fun e => (snd e =? n)%nat) (x :: l).
Proof.
  induction l as [|y l IH]; [reflexivity|].
  cbn [insert_desc].
  destruct (snd y <=? snd x)%nat eqn:E; [reflexivity|].
  apply Nat.leb_gt in E.
  cbn [filter] in *. rewrite IH.
  destruct (snd x =? n)%nat eqn:Ex; destruct (snd y =? n)%nat eqn:Ey; auto.
  apply Nat.eqb_eq in Ex, Ey. lia.
Qed.

Lemma most_common_stable (n : nat) (c : Counter.t) :
  filter (fun e => (snd e =? n)%nat) (most_common c)
  = filter (fun e => (snd e =? n)%nat) c.
Proof.
  induction c as [|x c IH]; [reflexivity|].
  cbn [most_common fold_right]. fold (most_common c).
  rewrite insert_desc_stable. cbn [filter]. now rewrite IH.
Qed.

Lemma total_perm (c c' : Counter.t) : Permutation c c' -> total c = total c'.
Proof.
  unfold total. induction 1; simpl; lia.
Qed.

End CounterFacts.

(** ** The report of the symptom matcher *)

Section Report.

Import Counter.

Lemma match_symptoms_matched
  (symptoms_input : string) (dfs : dataframes) (rows : list dataset_row) :
  dataset dfs = Some rows ->
  filter (row_matches (user_symptoms symptoms_input)) rows <> [] ->
  match_symptoms symptoms_input dfs
  = Ok (report (map Disease
                    (filter (row_matches (user_symptoms symptoms_input)) rows))).
Proof.
  intros Hd Hne. unfold match_symptoms, report. rewrite Hd.
  destruct (filter _ rows) as [|r m] eqn:E; [contradiction|].
  now rewrite length_map.
Qed.

Lemma ranked_entries (diseases : list cell) :
  let ranked := most_common (of_list diseases) in
  StronglySorted ranked_before ranked
  /\ NoDup (map fst ranked)
  /\ (forall d n, In (d, n) ranked <->
                  n = count_occ cell_eq_dec diseases d /\ 0 < n)
  /\ total ranked = length diseases.
Proof.
  intros ranked.
  destruct (of_list_spec diseases) as (Hnd & Hin & Htot).
  assert (P : Permutation ranked (of_list diseases))
    by apply most_common_perm.
  split; [apply most_common_sorted|].
  split.
  { eapply Permutation_NoDup; [|exact Hnd].
    apply Permutation_map. now symmetry. }
  split.
  { intros d n. rewrite <- Hin. split; apply Permutation_in; auto.
    now symmetry. }
  rewrite <- Htot. now apply total_perm.
Qed.

(** The four orders in which three Common Cold rows and one Flu row can
    stand in the table. *)
Lemma three_and_one (l : list cell) :
  Permutation l [common_cold; common_cold; common_cold; flu] ->
  l = [common_cold; common_cold; common_cold; flu]
  \/ l = [common_cold; common_cold; flu; common_cold]
  \/ l = [common_cold; flu; common_cold; common_cold]
  \/ l = [flu; common_cold; common_cold; common_cold].
Proof.
  intros P.
  assert (L := Permutation_length P).
  assert (C := proj1 (Permutation_count_occ cell_eq_dec l _) P flu).
  assert (M : forall x, In x l -> x = common_cold \/ x = flu).
  { intros x Hx. apply (Permutation_in _ P) in Hx. simpl in Hx. intuition. }
  destruct l as [|a [|b [|c [|d [|e l]]]]]; try discriminate L.
  assert (Ha : a = common_cold \/ a = flu) by (apply M; simpl; auto).
  assert (Hb : b = common_cold \/ b = flu) by (apply M; simpl; auto).
  assert (Hc : c = common_cold \/ c = flu) by (apply M; simpl; auto).
  assert (Hd : d = common_cold \/ d = flu) by (apply M; simpl; auto).
  destruct Ha as [-> | ->], Hb as [-> | ->], Hc as [-> | ->],
           Hd as [-> | ->];
    vm_compute in C; try discriminate C; auto 6.
Qed.

End Report.

(** C5: when rows match and their Disease cells are strings,
    [match_symptoms] writes the header and then one line per distinct
    disease of the matched rows, in the order of [most_common]: larger
    counts first.  The entry of a disease holds the number of matched rows
    of that disease, and its line shows [count / total_matched_rows * 100]
    in the format [.2f].  For the input "cough" and a table whose matched
    rows are three Common Cold rows and one Flu row, in any order, the
    lines are "Common Cold (75.00%)" and then "Flu (25.00%)", each behind
    the bullet "- ". *)
Theorem ranked_by_count :
  (forall (symptoms_input : string) (dfs : dataframes)
          (rows : list dataset_row),
      dataset dfs = Some rows ->
      let matched :=
        filter (row_matches (user_symptoms symptoms_input)) rows in
      matched <> [] ->
      Forall text_cell (map Disease matched) ->
      exists ranked : list (cell * nat),
        match_symptoms symptoms_input dfs
        = Ok (CStr "Potential diseases associated with your symptoms:"
              :: map (disease_line (length matched)) ranked)
        /\ StronglySorted (fun x y => snd y <= snd x) ranked
        /\ NoDup (map fst ranked)
        /\ (forall d n, In (d, n) ranked <->
              n = count_occ cell_eq_dec (map Disease matched) d /\ 0 < n)
        /\ (forall d n,
              disease_line (length matched) (d, n)
              = CStr ("- " ++ py_str d ++ " ("
                      ++ Fmt.format_2f
                           (PrimFloat.mul
                              (PrimFloat.div (Fmt.float_of_nat n)
                                 (Fmt.float_of_nat (length matched)))
                              (Fmt.float_of_nat 100))
                      ++ "%)")))
  /\ (forall (dfs : dataframes) (rows : list dataset_row),
         dataset dfs = Some rows ->
         Permutation
           (map Disease (filter (row_matches (user_symptoms "cough")) rows))
           [CStr "Common Cold"; CStr "Common Cold"; CStr "Common Cold";
            CStr "Flu"] ->
         match_symptoms "cough" dfs
         = Ok [CStr "Potential diseases associated with your symptoms:";
               CStr "- Common Cold (75.00%)";
               CStr "- Flu (25.00%)"]).
Proof.
  split.
  - intros input dfs rows Hd matched Hne _.
    exists (Counter.most_common (Counter.of_list (map Disease matched))).
    destruct (ranked_entries (map Disease matched)) as (Hs & Hnd & Hin & _).
    split.
    { rewrite (match_symptoms_matched input dfs rows Hd Hne).
      unfold report, report_header. fold matched. now rewrite length_map. }
    split; [exact Hs|]. split; [exact Hnd|]. split; [exact Hin|].
    reflexivity.
  - intros dfs rows Hd P.
    rewrite (match_symptoms_matched "cough" dfs rows Hd).
    + apply three_and_one in P.
      destruct P as [-> | [-> | [-> | ->]]]; reflexivity.
    + intros E. rewrite E in P. apply Permutation_length in P. discriminate.
Qed.

(** Three Common Cold rows and one Flu row, the Flu row second, with a row
    that does not match in between. *)
Lemma ranked_by_count_witness :
  let cold := {| Disease := CStr "Common Cold";
                 Symptoms := [CStr " Cough"; CNaN] |} in
  let flu := {| Disease := CStr "Flu";
                Symptoms := [CStr "fever"; CStr "cough"] |} in
  let acne := {| Disease := CStr "Acne"; Symptoms := [CStr "rash"; CNaN] |} in
  let dfs := {| dataset := Some [cold; flu; acne; cold; cold];
                symptom_description := None; symptom_precaution := None;
                symptom_severity := None; medquad := None |} in
  match_symptoms "cough" dfs
  = Ok [CStr "Potential diseases associated with your symptoms:";
        CStr "- Common Cold (75.00%)";
        CStr "- Flu (25.00%)"]
  /\ exists ranked : list (cell * nat),
       match_symptoms "cough" dfs
       = Ok (CStr "Potential diseases associated with your symptoms:"
             :: map (disease_line 4) ranked)
       /\ StronglySorted (fun x y => snd y <= snd x) ranked.
Proof.
  intros cold flu acne dfs. split.
  - apply (proj2 ranked_by_count dfs [cold; flu; acne; cold; cold]).
    + reflexivity.
    + simpl. apply perm_skip.
      apply Permutation_sym.
      apply (Permutation_cons_app [CStr "Flu"] [CStr "Common Cold"]
               (CStr "Common Cold")).
      apply (Permutation_cons_app [CStr "Flu"] [] (CStr "Common Cold")).
      apply Permutation_refl.
  - destruct (proj1 ranked_by_count "cough" dfs [cold; flu; acne; cold; cold]
                eq_refl ltac:(discriminate)
                ltac:(repeat constructor))
      as (ranked & E & S & _).
    exists ranked. split; [exact E | exact S].
Defined.

(** ** Shares as exact rationals *)

Section Shares.

Open Scope Q_scope.



(** The hundredths that [format_2f] prints for a float [m * 2^-k] are those
    of [round2] at the exact value of the float. *)
Lemma hundredths_round2 (m k : positive) :
  Fmt.hundredths m (Z.neg k) # 100 = round2 (Z.pos m # 2 ^ k).
Proof.
  unfold Fmt.hundredths, round2. cbn [Qnum Qden Z.leb Z.compare Z.opp].
  now rewrite Pos2Z.inj_pow.
Qed.



End Shares.



(** ** The exact-match lookups *)

Section ExactMatch.

Lemma key_matches_iff (name : string) (key : cell) :
  key_matches name key = true <->
  exists s, key = CStr s /\ Py.lower s = Py.lower name.
Proof.
  unfold key_matches. destruct key as [s| |]; simpl.
  - rewrite String.eqb_eq. split.
    + intros E. exists s. auto.
    + intros [t [[= ->] E]]. exact E.
  - split; [discriminate | intros [s [E _]]; discriminate].
  - split; [discriminate | intros [s [E _]]; discriminate].
Qed.

Lemma key_matches_is_str (name : string) (key : cell) :
  key_matches name key = true -> is_str key = true.
Proof.
  intros H. apply key_matches_iff in H as [s [-> _]]. reflexivity.
Qed.

Lemma has_str_accessor_In (col : list cell) (c : cell) :
  In c col -> is_str c = true -> Pd.has_str_accessor col = true.
Proof.
  intros Hin Hc. unfold Pd.has_str_accessor.
  destruct col; [reflexivity|].
  apply existsb_exists. exists c. auto.
Qed.

Lemma filter_first {A : Type} (f : A -> bool) (pre post : list A) (r : A) :
  (forall x, In x pre -> f x = false) -> f r = true ->
  filter f (pre ++ r :: post)%list = r :: filter f post.
Proof.
  intros Hpre Hr. induction pre as [|x pre IH]; simpl.
  - now rewrite Hr.
  - rewrite (Hpre x (or_introl eq_refl)). apply IH.
    intros y Hy. apply Hpre. now right.
Qed.

Lemma filter_none {A : Type} (f : A -> bool) (l : list A) :
  filter f l = [] <-> forall x, In x l -> f x = false.
Proof.
  induction l as [|x l IH]; simpl.
  - intuition.
  - destruct (f x) eqn:E.
    + split; [discriminate|]. intros H.
      specialize (H x (or_introl eq_refl)). congruence.
    + rewrite IH. split.
      * intros H y [<- | Hy]; auto.
      * intros H y Hy. apply H. now right.
Qed.

Lemma description_first (name : string) (dfs : dataframes)
  (pre post : list description_row) (r : description_row) :
  symptom_description dfs = Some (pre ++ r :: post)%list ->
  (forall x, In x pre -> key_matches name (d_Disease x) = false) ->
  key_matches name (d_Disease r) = true ->
  display_disease_description name dfs = Ok (description_of name r).
Proof.
  intros Hd Hpre Hr. unfold display_disease_description. rewrite Hd.
  rewrite (has_str_accessor_In _ (d_Disease r)).
  - now rewrite (filter_first _ pre post r Hpre Hr).
  - apply in_map. apply in_elt.
  - eapply key_matches_is_str; eauto.
Qed.

Lemma precautions_first (name : string) (dfs : dataframes)
  (pre post : list precaution_row) (r : precaution_row) :
  symptom_precaution dfs = Some (pre ++ r :: post)%list ->
  (forall x, In x pre -> key_matches name (p_Disease x) = false) ->
  key_matches name (p_Disease r) = true ->
  display_precautions name dfs = Ok (precautions_of name r).
Proof.
  intros Hd Hpre Hr. unfold display_precautions. rewrite Hd.
  rewrite (has_str_accessor_In _ (p_Disease r)).
  - rewrite (filter_first _ pre post r Hpre Hr).
    unfold precautions_of.
    destruct (filter is_str _); reflexivity.
  - apply in_map. apply in_elt.
  - eapply key_matches_is_str; eauto.
Qed.

Lemma severity_first (name : string) (dfs : dataframes)
  (pre post : list severity_row) (r : severity_row) :
  symptom_severity dfs = Some (pre ++ r :: post)%list ->
  (forall x, In x pre -> key_matches name (Symptom x) = false) ->
  key_matches name (Symptom r) = true ->
  display_symptom_severity name dfs = Ok (severity_of name r).
Proof.
  intros Hd Hpre Hr. unfold display_symptom_severity. rewrite Hd.
  rewrite (has_str_accessor_In _ (Symptom r)).
  - now rewrite (filter_first _ pre post r Hpre Hr).
  - apply in_map. apply in_elt.
  - eapply key_matches_is_str; eauto.
Qed.

End ExactMatch.

(** C8 as stated fails.  The keys "Flu " and "flu" have the same normal
    form, which is also that of the query "flu"; the earliest row with this
    normal form is the first one, yet the description written is that of
    the second: the first key, lowered but not trimmed, is not the query. *)
Lemma first_normalized_key_counterexample :
  let first := {| d_Disease := CStr "Flu "; Description := CStr "First." |} in
  let second := {| d_Disease := CStr "flu"; Description := CStr "Second." |} in
  let dfs := {| dataset := None;
                symptom_description := Some [first; second];
                symptom_precaution := None; symptom_severity := None;
                medquad := None |} in
  clean_symptom (d_Disease first) = clean_symptom (CStr "flu")
  /\ clean_symptom (d_Disease second) = clean_symptom (CStr "flu")
  /\ display_disease_description "flu" dfs
     = Ok [CStr "Disease Description for 'Flu':"; CStr "Second."].
Proof.
  intros first second dfs. repeat split; reflexivity.
Qed.

(** C8, amended: the exact-match lookups answer from the first row, in
    table order, whose key matches as the code compares it, lowered and not
    trimmed: when the rows before [r] do not match the key and [r] does,
    the description, the precautions and the severity weight written are
    those of [r], whatever rows follow it.  A description or weight that is
    a number is taken from a column of integers. *)
Theorem first_matching_row_wins :
  (forall (name : string) (dfs : dataframes)
          (pre post : list description_row) (r : description_row),
      symptom_description dfs = Some (pre ++ r :: post)%list ->
      (forall x, In x pre -> key_matches name (d_Disease x) = false) ->
      key_matches name (d_Disease r) = true ->
      typed_in (map Description (pre ++ r :: post)%list) (Description r) ->
      display_disease_description name dfs
      = Ok [CStr ("Disease Description for '" ++ Py.capitalize name ++ "':");
            Description r])
  /\ (forall (name : string) (dfs : dataframes)
             (pre post : list precaution_row) (r : precaution_row),
         symptom_precaution dfs = Some (pre ++ r :: post)%list ->
         (forall x, In x pre -> key_matches name (p_Disease x) = false) ->
         key_matches name (p_Disease r) = true ->
         display_precautions name dfs
         = Ok (match filter is_str [Precaution_1 r; Precaution_2 r;
                                    Precaution_3 r; Precaution_4 r] with
               | [] => [CStr ("No precautions listed for '" ++ name
                              ++ "' in the dataset.")]
               | precautions =>
                   CStr ("Precautions for " ++ Py.capitalize name ++ ":")
                   :: map bullet precautions
               end))
  /\ (forall (name : string) (dfs : dataframes)
             (pre post : list severity_row) (r : severity_row),
         symptom_severity dfs = Some (pre ++ r :: post)%list ->
         (forall x, In x pre -> key_matches name (Symptom x) = false) ->
         key_matches name (Symptom r) = true ->
         typed_in (map weight (pre ++ r :: post)%list) (weight r) ->
         display_symptom_severity name dfs
         = Ok [CStr ("Severity of " ++ Py.capitalize name ++ ": "
                     ++ py_str (weight r))]).
Proof.
  split; [|split].
  - intros. now apply (description_first name dfs pre post r).
  - intros. now apply (precautions_first name dfs pre post r).
  - intros. now apply (severity_first name dfs pre post r).
Qed.

(** Two rows are keyed "Flu" and "flu"; the query "FLU" is answered from the
    first of them, which stands behind a row for another disease. *)
Lemma first_matching_row_wins_witness :
  let acne := {| d_Disease := CStr "Acne"; Description := CStr "Skin." |} in
  let flu1 := {| d_Disease := CStr "Flu"; Description := CStr "First." |} in
  let flu2 := {| d_Disease := CStr "flu"; Description := CStr "Second." |} in
  let dfs := {| dataset := None;
                symptom_description := Some [acne; flu1; flu2];
                symptom_precaution := None; symptom_severity := None;
                medquad := None |} in
  display_disease_description "FLU" dfs
  = Ok [CStr "Disease Description for 'Flu':"; CStr "First."].
Proof.
  intros acne flu1 flu2 dfs.
  apply (proj1 first_matching_row_wins "FLU" dfs [acne] [flu2] flu1).
  - reflexivity.
  - intros x [<- | []]. reflexivity.
  - reflexivity.
  - left. reflexivity.
Defined.

(** ** Patterns without metacharacters *)

Section LiteralPatterns.

Import Re.

Lemma parse_plain (s : string) :
  plain s = true ->
  forall outer top,
    parse s outer top false = parse "" outer (push_all s top) false.
Proof.
  induction s as [|c s IH]; intros H outer top; [reflexivity|].
  simpl in H. apply andb_prop in H as [Hc Hs].
  apply negb_true_iff in Hc. unfold is_special in Hc.
  repeat (apply orb_false_iff in Hc as [Hc ?]).
  cbn [parse push_all]. unfold is_quantifier.
  repeat match goal with E : Ascii.eqb c _ = false |- _ =>
    rewrite E; clear E end.
  cbn [orb]. now apply IH.
Qed.

Lemma push_all_current (s : string) (top : frame) :
  branches (push_all s top) = branches top
  /\ forall acc,
       fold_left step (current (push_all s top)) acc
       = fold_left step (current top)
           (fold_right (fun c r => step r {| it_re := Chr c;
                                             it_quantified := false |})
              acc (list_ascii_of_string s)).
Proof.
  revert top. induction s as [|c s IH]; intros top; [split; reflexivity|].
  cbn [push_all list_ascii_of_string fold_right].
  destruct (IH (push_item top (Chr c))) as [Hb Hc].
  split; [exact Hb|].
  intros acc. rewrite Hc. reflexivity.
Qed.

Lemma lit_of_fold (s : string) :
  fold_right (fun c r => step r {| it_re := Chr c; it_quantified := false |})
    Eps (list_ascii_of_string s)
  = lit_of s.
Proof.
  induction s as [|c s IH]; [reflexivity|].
  cbn [list_ascii_of_string fold_right lit_of]. rewrite IH.
  unfold step. now destruct (lit_of s).
Qed.

(** [re.compile] accepts every plain pattern. *)
Lemma compile_plain (s : string) :
  plain s = true -> compile s = Compiled (lit_of s).
Proof.
  intros H. unfold compile. rewrite (parse_plain s H). cbn [parse].
  unfold frame_regex, seq_regex.
  destruct (push_all_current s fresh) as [Hb Hc].
  rewrite Hb, Hc. cbn [fresh branches current fold_left].
  now rewrite lit_of_fold.
Qed.

Lemma match_prefix_Never (s : string) : match_prefix Never s = false.
Proof.
  induction s; simpl; auto.
Qed.

Lemma match_prefix_Cat_Never (r : regex) (s : string) :
  match_prefix (Cat Never r) s = false.
Proof.
  induction s; simpl; auto.
Qed.

Lemma match_prefix_Alt (r1 r2 : regex) (s : string) :
  match_prefix (Alt r1 r2) s = match_prefix r1 s || match_prefix r2 s.
Proof.
  revert r1 r2. induction s as [|a s IH]; intros r1 r2; simpl.
  - now rewrite !orb_false_r.
  - rewrite IH.
    destruct (nullable r1), (nullable r2); simpl; auto;
      now rewrite ?orb_true_r.
Qed.

Lemma match_prefix_Cat_Eps (r : regex) (s : string) :
  match_prefix (Cat Eps r) s = match_prefix r s.
Proof.
  destruct s as [|a s]; simpl.
  - now rewrite !orb_false_r.
  - now rewrite match_prefix_Alt, match_prefix_Cat_Never.
Qed.

Lemma match_prefix_Chr (c : ascii) (s : string) :
  match_prefix (Chr c) s
  = match s with
    | EmptyString => false
    | String a _ => Ascii.eqb a c
    end.
Proof.
  destruct s as [|a s]; simpl; [reflexivity|].
  destruct (Ascii.eqb a c).
  - now destruct s.
  - apply match_prefix_Never.
Qed.

Lemma match_prefix_Cat_Chr (c : ascii) (r : regex) (s : string) :
  match_prefix (Cat (Chr c) r) s
  = match s with
    | EmptyString => false
    | String a s' => Ascii.eqb a c && match_prefix r s'
    end.
Proof.
  destruct s as [|a s]; simpl; [reflexivity|].
  destruct (Ascii.eqb a c); simpl.
  - apply match_prefix_Cat_Eps.
  - apply match_prefix_Cat_Never.
Qed.

Lemma match_prefix_lit (p s : string) :
  match_prefix (lit_of p) s = String.prefix p s.
Proof.
  revert s. induction p as [|c p IH]; intros s.
  - destruct s; reflexivity.
  - assert (E : match_prefix (lit_of (String c p)) s
                = match s with
                  | EmptyString => false
                  | String a s' => Ascii.eqb a c && match_prefix (lit_of p) s'
                  end).
    { cbn [lit_of].
      destruct (lit_of p) eqn:L;
        try (apply match_prefix_Cat_Chr).
      rewrite match_prefix_Chr. destruct s as [|a s]; [reflexivity|].
      destruct s; simpl; now rewrite andb_true_r. }
    rewrite E. destruct s as [|a s]; [reflexivity|].
    rewrite IH. simpl.
    destruct (ascii_dec c a) as [->|Hne].
    + now rewrite Ascii.eqb_refl.
    + destruct (Ascii.eqb a c) eqn:Eac; [|reflexivity].
      apply Ascii.eqb_eq in Eac. congruence.
Qed.

(** Searching a plain pattern is the substring test. *)
Lemma search_lit (p s : string) : search (lit_of p) s = Py.contains p s.
Proof.
  induction s as [|a s IH]; cbn [search Py.contains];
    rewrite match_prefix_lit; [reflexivity | now rewrite IH].
Qed.

End LiteralPatterns.

(** ** The substring lookups *)

Section Substring.

Lemma select_mask (by_name by_keyword : Re.regex) (df : list medquad_row) :
  let lowered := map (fun r => Pd.str_lower (question r)) df in
  map fst
    (filter snd
       (combine df
          (map (fun p => Pd.and_fill (fst p) (snd p))
             (combine (map (Pd.contains1 by_name) lowered)
                      (map (Pd.contains1 by_keyword) lowered)))))
  = filter (question_matches by_name by_keyword) df.
Proof.
  induction df as [|r df IH]; [reflexivity|].
  cbn [map combine filter snd fst] in *.
  assert (E : Pd.and_fill (Pd.contains1 by_name (Pd.str_lower (question r)))
                (Pd.contains1 by_keyword (Pd.str_lower (question r)))
              = question_matches by_name by_keyword r).
  { unfold question_matches. now destruct (question r). }
  rewrite E. destruct (question_matches by_name by_keyword r).
  - cbn [map fst]. now rewrite IH.
  - exact IH.
Qed.

Lemma medquad_select_compiled
  (disease_name keyword : string) (by_name by_keyword : Re.regex)
  (df : list medquad_row) :
  Re.compile disease_name = Re.Compiled by_name ->
  Re.compile keyword = Re.Compiled by_keyword ->
  Pd.has_str_accessor (map question df) = true ->
  medquad_select disease_name keyword df
  = Ok (filter (question_matches by_name by_keyword) df).
Proof.
  intros Hn Hk Ha. unfold medquad_select, str_contains.
  rewrite Ha, Hn, Hk. f_equal. apply select_mask.
Qed.


End Substring.




(** C4 at the input "(": the three substring lookups hand the text to
    [str.contains], which compiles it as a regular expression, and the
    exception [re.error] leaves the query function. *)
Theorem unbalanced_parenthesis_raises :
  let dfs :=
    {| dataset := None; symptom_description := None;
       symptom_precaution := None; symptom_severity := None;
       medquad := Some [{| question := CStr "What causes Flu?";
                           answer := CStr "Influenza viruses." |}] |} in
  display_disease_causes "(" dfs = Raise re_error
  /\ display_disease_diagnosis "(" dfs = Raise re_error
  /\ display_disease_research "(" dfs = Raise re_error.
Proof.
  intros dfs. repeat split; reflexivity.
Qed.

(** C7 at the input "influenza (flu": the table is loaded and no question
    holds the text, yet the lookup ends in [re.error], not in its "not
    found" message. *)
Theorem no_match_without_not_found :
  let rows := [{| question := CStr "What causes Glaucoma?";
                  answer := CStr "Pressure in the eye." |}] in
  let dfs :=
    {| dataset := None; symptom_description := None;
       symptom_precaution := None; symptom_severity := None;
       medquad := Some rows |} in
  (forall r q, In r rows -> question r = CStr q ->
               Py.contains "influenza (flu" (Py.lower q) = false)
  /\ display_disease_causes "influenza (flu" dfs = Raise re_error
  /\ display_disease_causes "influenza (flu" dfs
     <> Ok [CStr "No causes found for 'influenza (flu' in the 'medquad' dataset."].
Proof.
  intros rows dfs. split; [|split; [reflexivity | discriminate]].
  intros r q [<- | []] [= <-]. reflexivity.
Qed.

(** ** Further properties of the query functions *)

(** Each query function writes its "not loaded" message exactly when its
    table is absent: with the table loaded, no input makes it write that
    message.  And for no input is the "not loaded" message of a function
    its "not found" message. *)
Theorem not_loaded_is_reported :
  forall (text : string) (dfs : dataframes),
    (display_disease_description text dfs
     = Ok [CStr "Symptom description dataset not loaded."]
     <-> symptom_description dfs = None)
    /\ (match_symptoms text dfs = Ok [CStr "Dataset not loaded."]
        <-> dataset dfs = None)
    /\ (display_precautions text dfs
        = Ok [CStr "Symptom precaution dataset not loaded."]
        <-> symptom_precaution dfs = None)
    /\ (display_symptom_severity text dfs
        = Ok [CStr "Symptom severity dataset not loaded."]
        <-> symptom_severity dfs = None)
    /\ (display_disease_causes text dfs = Ok [CStr "Medquad dataset not loaded."]
        <-> medquad dfs = None)
    /\ (display_disease_diagnosis text dfs
        = Ok [CStr "Medquad dataset not loaded."]
        <-> medquad dfs = None)
    /\ (display_disease_research text dfs
        = Ok [CStr "Medquad dataset not loaded."]
        <-> medquad dfs = None)
    /\ "Disease '" ++ text ++ "' not found in the dataset."
       <> "Symptom description dataset not loaded."
    /\ "No matching diseases found for the provided symptoms."
       <> "Dataset not loaded."
    /\ "Disease '" ++ text ++ "' not found in the dataset."
       <> "Symptom precaution dataset not loaded."
    /\ "Symptom '" ++ text ++ "' not found in the dataset."
       <> "Symptom severity dataset not loaded."
    /\ "No causes found for '" ++ text ++ "' in the 'medquad' dataset."
       <> "Medquad dataset not loaded."
    /\ "No diagnosis found for '" ++ text ++ "' in the 'medquad' dataset."
       <> "Medquad dataset not loaded."
    /\ "No research information found for '" ++ text
       ++ "' in the 'medquad' dataset."
       <> "Medquad dataset not loaded.".
Proof.
  intros text dfs.
  split.
  { unfold display_disease_description.
    destruct (symptom_description dfs) as [df|]; [|tauto].
    split; [|discriminate].
    destruct (Pd.has_str_accessor _); [|discriminate].
    destruct (filter _ df); discriminate. }
  split.
  { unfold match_symptoms.
    destruct (dataset dfs) as [df|]; [|tauto].
    split; [|discriminate]. destruct (filter _ df); discriminate. }
  split.
  { unfold display_precautions.
    destruct (symptom_precaution dfs) as [df|]; [|tauto].
    split; [|discriminate].
    destruct (Pd.has_str_accessor _); [|discriminate].
    destruct (filter _ df); [discriminate|].
    destruct (filter is_str _); discriminate. }
  split.
  { unfold display_symptom_severity.
    destruct (symptom_severity dfs) as [df|]; [|tauto].
    split; [|discriminate].
    destruct (Pd.has_str_accessor _); [|discriminate].
    destruct (filter _ df); discriminate. }
  split.
  { unfold display_disease_causes.
    destruct (medquad dfs) as [df|]; [|tauto].
    split; [|discriminate].
    destruct (medquad_select _ _ df) as [sel| |]; try discriminate.
    destruct (map answer sel); discriminate. }
  split.
  { unfold display_disease_diagnosis.
    destruct (medquad dfs) as [df|]; [|tauto].
    split; [|discriminate].
    destruct (medquad_select _ _ df) as [sel| |]; try discriminate.
    destruct (map answer sel); discriminate. }
  split.
  { unfold display_disease_research.
    destruct (medquad dfs) as [df|]; [|tauto].
    split; [|discriminate].
    destruct (medquad_select _ _ df) as [sel| |]; try discriminate.
    destruct (map answer sel); discriminate. }
  repeat split; discriminate.
Qed.

Lemma not_loaded_is_reported_witness :
  display_disease_description "flu" no_tables
  = Ok [CStr "Symptom description dataset not loaded."]
  /\ match_symptoms "cough" no_tables = Ok [CStr "Dataset not loaded."].
Proof.
  split.
  - apply (proj2 (proj1 (not_loaded_is_reported "flu" no_tables))).
    reflexivity.
  - apply (proj2 (proj1 (proj2 (not_loaded_is_reported "cough" no_tables)))).
    reflexivity.
Defined.

(** [match_symptoms] returns for every input and every store; an
    exact-match lookup returns for every input once the key column of its
    table is a text column; a substring lookup returns for every input
    without metacharacters once the question column is a text column. *)
Theorem lookups_return :
  forall (text : string) (dfs : dataframes),
    (exists out, match_symptoms text dfs = Ok out)
    /\ ((forall df, symptom_description dfs = Some df ->
                    Pd.has_str_accessor (map d_Disease df) = true) ->
        exists out, display_disease_description text dfs = Ok out)
    /\ ((forall df, symptom_precaution dfs = Some df ->
                    Pd.has_str_accessor (map p_Disease df) = true) ->
        exists out, display_precautions text dfs = Ok out)
    /\ ((forall df, symptom_severity dfs = Some df ->
                    Pd.has_str_accessor (map Symptom df) = true) ->
        exists out, display_symptom_severity text dfs = Ok out)
    /\ (plain text = true ->
        (forall df, medquad dfs = Some df ->
                    Pd.has_str_accessor (map question df) = true) ->
        (exists out, display_disease_causes text dfs = Ok out)
        /\ (exists out, display_disease_diagnosis text dfs = Ok out)
        /\ (exists out, display_disease_research text dfs = Ok out)).
Proof.
  intros text dfs.
  split.
  { unfold match_symptoms. destruct (dataset dfs); [|eauto].
    destruct (filter _ l); eauto. }
  split.
  { intros H. unfold display_disease_description.
    destruct (symptom_description dfs) as [df|]; [|eauto].
    rewrite (H df eq_refl). destruct (filter _ df); eauto. }
  split.
  { intros H. unfold display_precautions.
    destruct (symptom_precaution dfs) as [df|]; [|eauto].
    rewrite (H df eq_refl). destruct (filter _ df); [eauto|].
    destruct (filter is_str _); eauto. }
  split.
  { intros H. unfold display_symptom_severity.
    destruct (symptom_severity dfs) as [df|]; [|eauto].
    rewrite (H df eq_refl). destruct (filter _ df); eauto. }
  intros Hp H.
  unfold display_disease_causes, display_disease_diagnosis,
    display_disease_research.
  destruct (medquad dfs) as [df|]; [|repeat split; eauto].
  specialize (H df eq_refl).
  rewrite (medquad_select_compiled text "cause" _ _ df
             (compile_plain text Hp) (compile_plain "cause" eq_refl) H).
  rewrite (medquad_select_compiled text "diagnose" _ _ df
             (compile_plain text Hp) (compile_plain "diagnose" eq_refl) H).
  rewrite (medquad_select_compiled text "research" _ _ df
             (compile_plain text Hp) (compile_plain "research" eq_refl) H).
  repeat split;
    match goal with |- context [map answer ?l] =>
      destruct (map answer l); eauto end.
Qed.

Lemma lookups_return_witness :
  exists out,
    display_disease_causes "flu"
      {| dataset := None; symptom_description := None;
         symptom_precaution := None; symptom_severity := None;
         medquad := Some [{| question := CStr "What causes Flu?";
                             answer := CStr "Influenza viruses." |}] |}
    = Ok out.
Proof.
  apply (proj2 (proj2 (proj2 (proj2 (lookups_return "flu" _))))).
  - reflexivity.
  - intros df [= <-]. reflexivity.
Defined.

(** For a disease name without metacharacters, the cause lookup selects the
    rows whose lowered question holds the name as entered and the word
    "cause", and writes their answers in table order; with no such row it
    writes its "not found" message. *)
Theorem causes_of_plain_name :
  forall (disease_name : string) (dfs : dataframes) (df : list medquad_row),
    medquad dfs = Some df ->
    plain disease_name = true ->
    Pd.has_str_accessor (map question df) = true ->
    let selected :=
      filter (fun r => match question r with
                       | CStr q => Py.contains disease_name (Py.lower q)
                                   && Py.contains "cause" (Py.lower q)
                       | _ => false
                       end) df in
    display_disease_causes disease_name dfs
    = Ok (match map answer selected with
          | [] => [CStr ("No causes found for '" ++ disease_name
                         ++ "' in the 'medquad' dataset.")]
          | causes =>
              CStr ("Causes of " ++ Py.capitalize disease_name
                    ++ " (from 'medquad' dataset):")
              :: map bullet causes
          end).
Proof.
  intros name dfs df Hd Hp Ha selected.
  unfold display_disease_causes. rewrite Hd.
  rewrite (medquad_select_compiled name "cause" _ _ df
             (compile_plain name Hp) (compile_plain "cause" eq_refl) Ha).
  assert (E : filter (question_matches (lit_of name) (lit_of "cause")) df
              = selected).
  { unfold selected. apply filter_ext. intros r. unfold question_matches.
    destruct (question r); auto. now rewrite !search_lit. }
  rewrite E. destruct (map answer selected); reflexivity.
Qed.

(** A question names the disease without the word "cause", and a cause
    question exists for another disease: nothing is found for "flu". *)
Lemma causes_of_plain_name_witness :
  let rows := [{| question := CStr "What is Flu?";
                  answer := CStr "An infection." |};
               {| question := CStr "What causes Glaucoma?";
                  answer := CStr "Pressure in the eye." |}] in
  display_disease_causes "flu"
    {| dataset := None; symptom_description := None;
       symptom_precaution := None; symptom_severity := None;
       medquad := Some rows |}
  = Ok [CStr "No causes found for 'flu' in the 'medquad' dataset."].
Proof.
  intros rows.
  apply (causes_of_plain_name "flu"
           {| dataset := None; symptom_description := None;
              symptom_precaution := None; symptom_severity := None;
              medquad := Some rows |} rows eq_refl eq_refl eq_refl).
Defined.

(** ** The normal form of a symptom *)

Section NormalForm.

Lemma isspace_lower_char (c : ascii) :
  Py.isspace (Py.lower_char c) = Py.isspace c.
Proof.
  destruct c as [[] [] [] [] [] [] [] []]; reflexivity.
Qed.

Lemma upper_lower_char (c : ascii) :
  Py.upper_char (Py.lower_char c) = Py.upper_char c.
Proof.
  destruct c as [[] [] [] [] [] [] [] []]; reflexivity.
Qed.

Lemma lower_lower (s : string) : Py.lower (Py.lower s) = Py.lower s.
Proof.
  induction s as [|c s IH]; simpl; [reflexivity|].
  rewrite IH. f_equal.
  unfold Py.lower_char at 1. now rewrite lower_char_not_upper.
Qed.

Lemma lstrip_lower (s : string) :
  Py.lstrip (Py.lower s) = Py.lower (Py.lstrip s).
Proof.
  induction s as [|c s IH]; simpl; [reflexivity|].
  rewrite isspace_lower_char. now destruct (Py.isspace c).
Qed.

Lemma rstrip_lower (s : string) :
  Py.rstrip (Py.lower s) = Py.lower (Py.rstrip s).
Proof.
  induction s as [|c s IH]; simpl; [reflexivity|].
  rewrite IH, isspace_lower_char.
  destruct (Py.rstrip s); simpl; [|reflexivity].
  now destruct (Py.isspace c).
Qed.

Lemma strip_lower (s : string) :
  Py.strip (Py.lower s) = Py.lower (Py.strip s).
Proof.
  unfold Py.strip. now rewrite lstrip_lower, rstrip_lower.
Qed.

Lemma lstrip_fixed (s : string) : clean_start s -> Py.lstrip s = s.
Proof.
  intros H. destruct s as [|c s]; [reflexivity|].
  simpl. now rewrite (H c s eq_refl).
Qed.

Lemma rstrip_fixed (s : string) : clean_end s -> Py.rstrip s = s.
Proof.
  induction s as [|c s IH]; intros H; [reflexivity|].
  simpl. destruct s as [|b s].
  - simpl. now rewrite (H "" c eq_refl).
  - rewrite IH; [reflexivity|].
    intros t a E. apply (H (String c t) a). simpl. now rewrite E.
Qed.

Lemma strip_strip (s : string) : Py.strip (Py.strip s) = Py.strip s.
Proof.
  unfold Py.strip.
  rewrite (lstrip_fixed (Py.rstrip (Py.lstrip s))).
  - apply rstrip_fixed, rstrip_clean_end.
  - apply rstrip_clean_start, lstrip_clean_start.
Qed.

Lemma clean_clean (c : cell) :
  clean_symptom (CStr (clean_symptom c)) = clean_symptom c.
Proof.
  destruct c as [s| |]; try reflexivity.
  simpl. now rewrite strip_lower, strip_strip, lower_lower.
Qed.

End NormalForm.

(** [clean_symptom] yields a normal form: cleaning a cleaned value changes
    nothing, stripping and lowering commute, and a table whose cells were
    all replaced by their clean forms is matched by [match_symptoms] exactly
    as the table itself. *)
Theorem clean_symptom_is_a_normal_form :
  (forall c : cell, clean_symptom (CStr (clean_symptom c)) = clean_symptom c)
  /\ (forall s : string, Py.lower (Py.strip s) = Py.strip (Py.lower s))
  /\ (forall (l : list string) (row : dataset_row),
         row_matches l (clean_row row) = row_matches l row)
  /\ (forall (symptoms_input : string) (rows : list dataset_row),
         map clean_row
             (filter (row_matches (user_symptoms symptoms_input)) rows)
         = filter (row_matches (user_symptoms symptoms_input))
                  (map clean_row rows)).
Proof.
  assert (R : forall l row, row_matches l (clean_row row) = row_matches l row).
  { intros l row. unfold row_matches, clean_row, row_cells.
    cbn [Disease Symptoms existsb]. rewrite clean_clean. f_equal.
    induction (Symptoms row) as [|c cs IH]; cbn [map existsb];
      [reflexivity|].
    now rewrite clean_clean, IH. }
  split; [exact clean_clean|].
  split; [intros s; symmetry; apply strip_lower|].
  split; [exact R|].
  intros input rows. induction rows as [|r rows IH]; simpl; [reflexivity|].
  rewrite R. destruct (row_matches _ r); simpl; now rewrite IH.
Qed.

(** ** The query symptoms of an input *)

Section QuerySymptoms.

Lemma split_app (sep : ascii) (a b : string) :
  Py.split sep (a ++ String sep b) = (Py.split sep a ++ Py.split sep b)%list.
Proof.
  induction a as [|c a IH]; simpl.
  - now rewrite Ascii.eqb_refl.
  - rewrite IH. destruct (Ascii.eqb c sep); [reflexivity|].
    destruct (Py.split sep a) as [|h t] eqn:E; [|reflexivity].
    now apply split_not_nil in E.
Qed.

Lemma join_cons (sep : ascii) (x : string) (rest : list string) :
  rest <> [] -> join sep (x :: rest) = x ++ String sep (join sep rest).
Proof.
  destruct rest; [contradiction | reflexivity].
Qed.

Lemma join_split (sep : ascii) (s : string) : join sep (Py.split sep s) = s.
Proof.
  induction s as [|c s IH]; [reflexivity|].
  cbn [Py.split]. destruct (Ascii.eqb c sep) eqn:E.
  - apply Ascii.eqb_eq in E. subst c.
    rewrite join_cons by apply split_not_nil. now rewrite IH.
  - destruct (Py.split sep s) as [|h t] eqn:S.
    + now apply split_not_nil in S.
    + rewrite <- IH. destruct t; reflexivity.
Qed.

Lemma split_tokens_no_sep (sep : ascii) (s token : string) :
  In token (Py.split sep s) -> count_char sep token = 0.
Proof.
  revert token. induction s as [|c s IH]; intros token; cbn [Py.split].
  - intros [<- | []]. reflexivity.
  - destruct (Ascii.eqb c sep) eqn:E.
    + intros [<- | H]; [reflexivity | now apply IH].
    + destruct (Py.split sep s) as [|h t] eqn:S.
      * now apply split_not_nil in S.
      * intros [<- | H].
        -- simpl. rewrite E. apply IH. now left.
        -- apply IH. now right.
Qed.

Lemma split_length (sep : ascii) (s : string) :
  length (Py.split sep s) = S (count_char sep s).
Proof.
  induction s as [|c s IH]; cbn [Py.split count_char]; [reflexivity|].
  destruct (Ascii.eqb c sep).
  - simpl. now rewrite IH.
  - destruct (Py.split sep s) as [|h t] eqn:S.
    + now apply split_not_nil in S.
    + simpl in *. lia.
Qed.

Lemma mem_app (x : string) (l1 l2 : list string) :
  Py.mem x (l1 ++ l2) = Py.mem x l1 || Py.mem x l2.
Proof.
  unfold Py.mem. apply existsb_app.
Qed.

Lemma existsb_orb {A : Type} (f g : A -> bool) (l : list A) :
  existsb (fun x => f x || g x) l = existsb f l || existsb g l.
Proof.
  induction l as [|x l IH]; simpl; [reflexivity|].
  rewrite IH. destruct (f x), (g x), (existsb f l); reflexivity.
Qed.

Lemma existsb_pointwise {A : Type} (f g : A -> bool) (l : list A) :
  (forall x, f x = g x) -> existsb f l = existsb g l.
Proof.
  intros H. induction l as [|x l IH]; simpl; [reflexivity|].
  now rewrite H, IH.
Qed.

Lemma row_matches_app (l1 l2 : list string) (row : dataset_row) :
  row_matches (l1 ++ l2) row = row_matches l1 row || row_matches l2 row.
Proof.
  unfold row_matches. rewrite <- existsb_orb.
  apply existsb_pointwise. intros c. apply mem_app.
Qed.

Lemma row_matches_same_set (l1 l2 : list string) (row : dataset_row) :
  (forall x, In x l1 <-> In x l2) ->
  row_matches l1 row = row_matches l2 row.
Proof.
  intros H. unfold row_matches. apply existsb_pointwise. intros c.
  destruct (Py.mem (clean_symptom c) l1) eqn:E1;
    destruct (Py.mem (clean_symptom c) l2) eqn:E2; auto.
  - apply mem_In, H, mem_In in E1. congruence.
  - apply mem_In, H, mem_In in E2. congruence.
Qed.

End QuerySymptoms.

(** The tokens of an input are what stands between its commas: joined by
    commas they give the input back, none of them holds a comma, and there
    is one more token than there are commas, so [match_symptoms] always has
    at least one query symptom. *)
Theorem tokens_of_the_input :
  forall symptoms_input : string,
    join "," (Py.split "," symptoms_input) = symptoms_input
    /\ Forall (fun token => count_char "," token = 0)
              (Py.split "," symptoms_input)
    /\ length (user_symptoms symptoms_input)
       = S (count_char "," symptoms_input).
Proof.
  intros input. split; [apply join_split|]. split.
  - apply Forall_forall. intros token. apply split_tokens_no_sep.
  - unfold user_symptoms. rewrite length_map. apply split_length.
Qed.

(** Symptoms joined by a comma are matched as alternatives: a row matches
    the input [a,b] exactly when it matches [a] or matches [b], so adding a
    symptom to the input never loses a matched row. *)
Theorem symptoms_are_alternatives :
  forall (a b : string) (rows : list dataset_row),
    user_symptoms (a ++ "," ++ b)
    = (user_symptoms a ++ user_symptoms b)%list
    /\ (forall row,
           row_matches (user_symptoms (a ++ "," ++ b)) row
           = row_matches (user_symptoms a) row
             || row_matches (user_symptoms b) row)
    /\ incl (filter (row_matches (user_symptoms a)) rows)
            (filter (row_matches (user_symptoms (a ++ "," ++ b))) rows)
    /\ incl (filter (row_matches (user_symptoms b)) rows)
            (filter (row_matches (user_symptoms (a ++ "," ++ b))) rows).
Proof.
  intros a b rows.
  assert (U : user_symptoms (a ++ "," ++ b)
              = (user_symptoms a ++ user_symptoms b)%list).
  { unfold user_symptoms. simpl. now rewrite split_app, map_app. }
  assert (M : forall row,
             row_matches (user_symptoms (a ++ "," ++ b)) row
             = row_matches (user_symptoms a) row
               || row_matches (user_symptoms b) row).
  { intros row. rewrite U. apply row_matches_app. }
  split; [exact U|]. split; [exact M|].
  split; intros row H; apply filter_In in H as [Hin Hm];
    apply filter_In; split; auto; rewrite M, Hm; auto using orb_true_r.
Qed.

(** [match_symptoms] reads its input as a set of clean symptoms: two inputs
    with the same clean tokens, in any order, with any repetition, letter
    case or surrounding white space, give the same output. *)
Theorem symptom_order_is_irrelevant :
  forall (input1 input2 : string) (dfs : dataframes),
    (forall x, In x (user_symptoms input1) <-> In x (user_symptoms input2)) ->
    match_symptoms input1 dfs = match_symptoms input2 dfs.
Proof.
  intros i1 i2 dfs H. unfold match_symptoms.
  destruct (dataset dfs) as [rows|]; [|reflexivity].
  assert (E : filter (row_matches (user_symptoms i1)) rows
              = filter (row_matches (user_symptoms i2)) rows).
  { apply filter_ext. intros row. now apply row_matches_same_set. }
  now rewrite E.
Qed.

Lemma symptom_order_is_irrelevant_witness :
  let dfs := {| dataset := Some [{| Disease := CStr "Flu";
                                     Symptoms := [CStr "fever"; CNaN] |};
                                  {| Disease := CStr "Acne";
                                     Symptoms := [CStr "rash"; CNaN] |}];
                symptom_description := None; symptom_precaution := None;
                symptom_severity := None; medquad := None |} in
  match_symptoms "cough, Fever" dfs = match_symptoms "FEVER,cough ,cough" dfs.
Proof.
  intros dfs. apply symptom_order_is_irrelevant.
  intros x. simpl. intuition.
Defined.

(** The report of [match_symptoms] depends on the table only through the
    Disease cells of the matched rows, in table order, when these cells are
    strings: rows that do not match, the symptom slots of those that do,
    and the other tables change nothing. *)
Theorem report_depends_on_matched_diseases :
  forall (symptoms_input : string) (dfs dfs' : dataframes)
         (rows rows' : list dataset_row),
    dataset dfs = Some rows ->
    dataset dfs' = Some rows' ->
    map Disease (filter (row_matches (user_symptoms symptoms_input)) rows)
    = map Disease (filter (row_matches (user_symptoms symptoms_input)) rows') ->
    Forall text_cell
      (map Disease (filter (row_matches (user_symptoms symptoms_input)) rows)) ->
    match_symptoms symptoms_input dfs = match_symptoms symptoms_input dfs'.
Proof.
  intros input dfs dfs' rows rows' H H' E _.
  destruct (filter (row_matches (user_symptoms input)) rows) as [|r m] eqn:F;
    destruct (filter (row_matches (user_symptoms input)) rows') as [|r' m']
      eqn:F'; try discriminate E.
  - unfold match_symptoms. now rewrite H, H', F, F'.
  - rewrite (match_symptoms_matched input dfs rows H) by (rewrite F; discriminate).
    rewrite (match_symptoms_matched input dfs' rows' H')
      by (rewrite F'; discriminate).
    now rewrite F, F', E.
Qed.

Lemma report_depends_on_matched_diseases_witness :
  let flu := {| Disease := CStr "Flu"; Symptoms := [CStr "fever"; CNaN] |} in
  let flu' := {| Disease := CStr "Flu"; Symptoms := [CStr "Fever "] |} in
  let acne := {| Disease := CStr "Acne"; Symptoms := [CStr "rash"] |} in
  match_symptoms "fever"
    {| dataset := Some [acne; flu]; symptom_description := None;
       symptom_precaution := None; symptom_severity := None;
       medquad := None |}
  = match_symptoms "fever"
      {| dataset := Some [flu']; symptom_description := Some [];
         symptom_precaution := None; symptom_severity := None;
         medquad := None |}.
Proof.
  intros flu flu' acne.
  apply (report_depends_on_matched_diseases "fever" _ _ [acne; flu] [flu']);
    try reflexivity.
  repeat constructor.
Defined.

(** ** Equal counts in the ranking *)

Section Ties.

Import Counter.

Lemma keys_incr_shape (k : cell) (c : Counter.t) :
  map fst (incr k c)
  = if existsb (cell_eqb k) (map fst c) then map fst c
    else (map fst c ++ [k])%list.
Proof.
  induction c as [|[k0 n] c IH]; simpl; [reflexivity|].
  destruct (cell_eqb k k0); simpl; [reflexivity|].
  rewrite IH. now destruct (existsb (cell_eqb k) (map fst c)).
Qed.

Lemma stands_before_app {A : Type} (a b : A) (l l' : list A) :
  stands_before a b l -> stands_before a b (l ++ l').
Proof.
  intros (p & q & r & ->). exists p, q, (r ++ l')%list.
  now rewrite <- !app_assoc, <- !app_comm_cons, <- app_assoc.
Qed.

Lemma incr_keeps_order (a b k : cell) (c : Counter.t) :
  stands_before a b (map fst c) -> stands_before a b (map fst (incr k c)).
Proof.
  intros H. rewrite keys_incr_shape.
  destruct (existsb (cell_eqb k) (map fst c)); [exact H|].
  now apply stands_before_app.
Qed.

Lemma fold_keeps_order (a b : cell) (l : list cell) (c : Counter.t) :
  stands_before a b (map fst c) ->
  stands_before a b (map fst (fold_left (fun c k => incr k c) l c)).
Proof.
  revert c. induction l as [|x l IH]; intros c H; simpl; [exact H|].
  apply IH. now apply incr_keeps_order.
Qed.

Lemma new_key_goes_last (a b : cell) (c : Counter.t) :
  In a (map fst c) -> ~ In b (map fst c) ->
  stands_before a b (map fst (incr b c)).
Proof.
  intros Ha Hb. rewrite keys_incr_shape.
  destruct (existsb (cell_eqb b) (map fst c)) eqn:E.
  - apply existsb_exists in E as [x [Hx Ex]].
    apply cell_eqb_eq in Ex. subst x. contradiction.
  - apply in_split in Ha as (p & q & ->).
    exists p, q, []. now rewrite <- app_assoc.
Qed.

(** A key first seen later stands later in the Counter. *)
Lemma of_list_first_seen (a b : cell) (before after : list cell) :
  In a before -> ~ In b before ->
  stands_before a b (map fst (of_list (before ++ b :: after))).
Proof.
  intros Ha Hb. unfold of_list. rewrite fold_left_app. simpl.
  apply fold_keeps_order.
  destruct (fold_incr before []) as (_ & _ & _ & _ & K). simpl in K.
  apply new_key_goes_last.
  - apply K. now right.
  - intros H. apply K in H as [[] | H]. contradiction.
Qed.

Lemma entries_of_keys (a b : cell) (c : Counter.t) :
  stands_before a b (map fst c) ->
  exists na nb P Q R, c = (P ++ (a, na) :: Q ++ (b, nb) :: R)%list.
Proof.
  intros (p & q & r & E).
  apply map_eq_app in E as (P & T & -> & _ & E).
  apply map_eq_cons in E as ([a' na] & T' & -> & Ea & E).
  apply map_eq_app in E as (Q & U & -> & _ & E).
  apply map_eq_cons in E as ([b' nb] & R & -> & Eb & _).
  simpl in Ea, Eb. subst. now exists na, nb, P, Q, R.
Qed.

Lemma filter_split {A : Type} (f : A -> bool) (l p t : list A) (a : A) :
  filter f l = (p ++ a :: t)%list ->
  exists l1 l2, l = (l1 ++ a :: l2)%list /\ filter f l2 = t.
Proof.
  revert p. induction l as [|x l IH]; intros p E; simpl in E.
  - destruct p; discriminate.
  - destruct (f x) eqn:Fx.
    + destruct p as [|y p]; simpl in E.
      * injection E as -> E. exists [], l. auto.
      * injection E as -> E.
        destruct (IH p E) as (l1 & l2 & -> & H).
        exists (y :: l1), l2. auto.
    + destruct (IH p E) as (l1 & l2 & -> & H).
      exists (x :: l1), l2. auto.
Qed.

Lemma ranked_ties (a b : cell) (before after : list cell) :
  let diseases := (before ++ b :: after)%list in
  In a before -> ~ In b before ->
  count_occ cell_eq_dec diseases a = count_occ cell_eq_dec diseases b ->
  exists n, stands_before (a, n) (b, n) (most_common (of_list diseases)).
Proof.
  intros diseases Ha Hb Hc.
  destruct (entries_of_keys a b (of_list diseases)
              (of_list_first_seen a b before after Ha Hb))
    as (na & nb & P & Q & R & E).
  destruct (of_list_spec diseases) as (_ & Hin & _).
  assert (Ea : na = count_occ cell_eq_dec diseases a).
  { apply (Hin a na). rewrite E. apply in_elt. }
  assert (Eb : nb = count_occ cell_eq_dec diseases b).
  { apply (Hin b nb). rewrite E. apply in_or_app. right. right.
    apply in_elt. }
  assert (Hn : nb = na) by congruence. clear Ea Eb. subst nb.
  exists na.
  assert (S := most_common_stable na (of_list diseases)).
  remember (most_common (of_list diseases)) as ranked eqn:Rk.
  rewrite E in S. clear Rk.
  rewrite filter_app in S. simpl in S. rewrite Nat.eqb_refl in S.
  rewrite filter_app in S. simpl in S. rewrite Nat.eqb_refl in S.
  apply filter_split in S as (l1 & l2 & E1 & S).
  apply filter_split in S as (m1 & m2 & E2 & _).
  exists l1, m1, m2. now rewrite E1, E2.
Qed.

End Ties.

(** Diseases with the same number of matched rows are listed in the order
    in which they first occur among the matched rows: when [d1] occurs
    before the first matched row of [d2] and both have the same count, the
    line of [d1] stands before the line of [d2]. *)
Theorem ties_keep_table_order :
  forall (symptoms_input : string) (dfs : dataframes)
         (rows : list dataset_row) (d1 d2 : cell)
         (before after : list cell),
    dataset dfs = Some rows ->
    let diseases :=
      map Disease (filter (row_matches (user_symptoms symptoms_input)) rows) in
    diseases = (before ++ d2 :: after)%list ->
    In d1 before -> ~ In d2 before ->
    count_occ cell_eq_dec diseases d1 = count_occ cell_eq_dec diseases d2 ->
    exists n p q r,
      match_symptoms symptoms_input dfs
      = Ok (CStr "Potential diseases associated with your symptoms:"
            :: map (disease_line (length diseases))
                   (p ++ (d1, n) :: q ++ (d2, n) :: r)).
Proof.
  intros input dfs rows d1 d2 before after Hd diseases E Ha Hb Hc.
  assert (Hne : filter (row_matches (user_symptoms input)) rows <> []).
  { intros F. unfold diseases in E. rewrite F in E.
    destruct before; discriminate. }
  rewrite (match_symptoms_matched input dfs rows Hd Hne).
  fold diseases. unfold report, report_header.
  rewrite E in Hc |- *.
  destruct (ranked_ties d1 d2 before after Ha Hb Hc) as (n & p & q & r & R).
  exists n, p, q, r. now rewrite R.
Qed.

(** Acne and Flu have one matched row each and Acne comes first in the
    table, so Acne is listed first; Cold has two and leads. *)
Lemma ties_keep_table_order_witness :
  let row d := {| Disease := CStr d; Symptoms := [CStr "fever"] |} in
  exists n p q r,
    match_symptoms "fever"
      {| dataset := Some [row "Acne"; row "Cold"; row "Flu"; row "Cold"];
         symptom_description := None; symptom_precaution := None;
         symptom_severity := None; medquad := None |}
    = Ok (CStr "Potential diseases associated with your symptoms:"
          :: map (disease_line 4)
                 (p ++ (CStr "Acne", n) :: q ++ (CStr "Flu", n) :: r)).
Proof.
  intros row.
  apply (ties_keep_table_order "fever"
           {| dataset := Some [row "Acne"; row "Cold"; row "Flu"; row "Cold"];
              symptom_description := None; symptom_precaution := None;
              symptom_severity := None; medquad := None |}
           [row "Acne"; row "Cold"; row "Flu"; row "Cold"]
           (CStr "Acne") (CStr "Flu") [CStr "Acne"; CStr "Cold"] [CStr "Cold"]
           eq_refl eq_refl).
  - simpl. auto.
  - simpl. intros [H | [H | []]]; discriminate.
  - reflexivity.
Defined.

(** ** Bounds on the reported counts *)

Section CountBounds.

Lemma length_le_total (c : Counter.t) :
  positive_counts c -> length c <= total c.
Proof.
  unfold positive_counts, total.
  induction 1 as [|e c He Hc IH]; simpl; lia.
Qed.

Lemma share_bounds (matched_rows count : nat) :
  0 < count -> count <= matched_rows ->
  (0 < share matched_rows count)%Q /\ (share matched_rows count <= 100)%Q.
Proof.
  intros Hc Hm. unfold share.
  destruct matched_rows as [|t]; [lia|].
  unfold Qdiv, Qmult, Qinv, Qlt, Qle, inject_Z.
  cbn [Qnum Qden Z.of_nat]. split; lia.
Qed.

End CountBounds.

(** When rows match and their Disease cells are strings, every reported
    disease has a count between 1 and the number of matched rows, hence an
    exact share above 0 and at most 100; the number of reported diseases is
    at least 1 and at most the number of matched rows; and a disease
    reported alone has every matched row. *)
Theorem reported_counts_are_bounded :
  forall (symptoms_input : string) (dfs : dataframes)
         (rows : list dataset_row),
    dataset dfs = Some rows ->
    let matched := filter (row_matches (user_symptoms symptoms_input)) rows in
    matched <> [] ->
    Forall text_cell (map Disease matched) ->
    let ranked :=
      Counter.most_common (Counter.of_list (map Disease matched)) in
    match_symptoms symptoms_input dfs
    = Ok (CStr "Potential diseases associated with your symptoms:"
          :: map (disease_line (length matched)) ranked)
    /\ Forall (fun e => 1 <= snd e <= length matched
                        /\ (0 < share (length matched) (snd e))%Q
                        /\ (share (length matched) (snd e) <= 100)%Q) ranked
    /\ 1 <= length ranked <= length matched
    /\ (forall d n, ranked = [(d, n)] -> n = length matched).
Proof.
  intros input dfs rows Hd matched Hne _ ranked.
  destruct (ranked_entries (map Disease matched)) as (_ & _ & Hin & Ht).
  fold ranked in Hin, Ht. rewrite length_map in Ht.
  assert (Hb : forall d n, In (d, n) ranked -> 1 <= n <= length matched).
  { intros d n H. apply Hin in H as [-> Hpos]. split; [lia|].
    rewrite <- (length_map Disease matched). apply count_occ_bound. }
  split.
  { rewrite (match_symptoms_matched input dfs rows Hd Hne).
    unfold report, report_header. fold matched. now rewrite length_map. }
  split.
  { apply Forall_forall. intros [d n] H. simpl.
    destruct (Hb d n H) as [H1 H2]. split; [lia|].
    apply share_bounds; lia. }
  split.
  { split.
    - destruct ranked as [|e r]; simpl; [|lia].
      simpl in Ht. destruct matched; [contradiction | discriminate].
    - rewrite <- Ht. apply length_le_total.
      apply Forall_forall. intros [d n] H. simpl.
      destruct (Hb d n H). lia. }
  intros d n E. rewrite E in Ht. unfold total in Ht. simpl in Ht. lia.
Qed.

Lemma reported_counts_are_bounded_witness :
  let row d := {| Disease := CStr d; Symptoms := [CStr "fever"] |} in
  let ranked := [(CStr "Cold", 2); (CStr "Flu", 1)] in
  Forall (fun e => 1 <= snd e <= 3
                   /\ (0 < share 3 (snd e))%Q /\ (share 3 (snd e) <= 100)%Q)
         ranked
  /\ 1 <= length ranked <= 3.
Proof.
  intros row ranked.
  destruct (reported_counts_are_bounded "fever"
              {| dataset := Some [row "Flu"; row "Cold"; row "Cold"];
                 symptom_description := None; symptom_precaution := None;
                 symptom_severity := None; medquad := None |}
              [row "Flu"; row "Cold"; row "Cold"] eq_refl
              ltac:(discriminate) ltac:(repeat constructor))
    as (_ & F & B & _).
  split; [exact F | exact B].
Defined.

(** ** Letter case in the exact-match lookups *)

Section LetterCase.

Lemma capitalize_lower (s : string) :
  Py.capitalize (Py.lower s) = Py.capitalize s.
Proof.
  destruct s as [|c s]; [reflexivity|].
  simpl. now rewrite upper_lower_char, lower_lower.
Qed.

Lemma capitalize_same_lower (n1 n2 : string) :
  Py.lower n1 = Py.lower n2 -> Py.capitalize n1 = Py.capitalize n2.
Proof.
  intros E. now rewrite <- (capitalize_lower n1), E, capitalize_lower.
Qed.

Lemma key_matches_same_lower (n1 n2 : string) (key : cell) :
  Py.lower n1 = Py.lower n2 -> key_matches n1 key = key_matches n2 key.
Proof.
  intros E. unfold key_matches. now rewrite E.
Qed.

End LetterCase.

(** The exact-match lookups do not see the letter case of a query in
    ASCII: two such queries with the same lowered text select the same row
    and write the same answer.  Their outputs differ only where the query
    is echoed as typed, in the "not found" message and in the "No
    precautions listed" message. *)
Theorem exact_lookups_ignore_case :
  forall (n1 n2 : string) (dfs : dataframes),
    ascii_text n1 = true -> ascii_text n2 = true ->
    Py.lower n1 = Py.lower n2 ->
    (display_disease_description n1 dfs = display_disease_description n2 dfs
     \/ (display_disease_description n1 dfs
         = Ok [CStr ("Disease '" ++ n1 ++ "' not found in the dataset.")]
         /\ display_disease_description n2 dfs
            = Ok [CStr ("Disease '" ++ n2 ++ "' not found in the dataset.")]))
    /\ (display_symptom_severity n1 dfs = display_symptom_severity n2 dfs
        \/ (display_symptom_severity n1 dfs
            = Ok [CStr ("Symptom '" ++ n1 ++ "' not found in the dataset.")]
            /\ display_symptom_severity n2 dfs
               = Ok [CStr ("Symptom '" ++ n2
                           ++ "' not found in the dataset.")]))
    /\ (display_precautions n1 dfs = display_precautions n2 dfs
        \/ (display_precautions n1 dfs
            = Ok [CStr ("Disease '" ++ n1 ++ "' not found in the dataset.")]
            /\ display_precautions n2 dfs
               = Ok [CStr ("Disease '" ++ n2
                           ++ "' not found in the dataset.")])
        \/ (display_precautions n1 dfs
            = Ok [CStr ("No precautions listed for '" ++ n1
                        ++ "' in the dataset.")]
            /\ display_precautions n2 dfs
               = Ok [CStr ("No precautions listed for '" ++ n2
                           ++ "' in the dataset.")])).
Proof.
  intros n1 n2 dfs _ _ E.
  assert (C := capitalize_same_lower n1 n2 E).
  split; [|split].
  - unfold display_disease_description.
    destruct (symptom_description dfs) as [df|]; [|now left].
    destruct (Pd.has_str_accessor _); [|now left].
    rewrite (filter_ext _ (fun r => key_matches n2 (d_Disease r)))
      by (intros r; now apply key_matches_same_lower).
    destruct (filter _ df); [right; auto | left; now rewrite C].
  - unfold display_symptom_severity.
    destruct (symptom_severity dfs) as [df|]; [|now left].
    destruct (Pd.has_str_accessor _); [|now left].
    rewrite (filter_ext _ (fun r => key_matches n2 (Symptom r)))
      by (intros r; now apply key_matches_same_lower).
    destruct (filter _ df); [right; auto | left; now rewrite C].
  - unfold display_precautions.
    destruct (symptom_precaution dfs) as [df|]; [|now left].
    destruct (Pd.has_str_accessor _); [|now left].
    rewrite (filter_ext _ (fun r => key_matches n2 (p_Disease r)))
      by (intros r; now apply key_matches_same_lower).
    destruct (filter _ df) as [|r f]; [right; left; auto|].
    destruct (filter is_str _); [right; right; auto | left; now rewrite C].
Qed.

Lemma exact_lookups_ignore_case_witness :
  let dfs := {| dataset := None;
                symptom_description :=
                  Some [{| d_Disease := CStr "Flu";
                           Description := CStr "A viral infection." |}];
                symptom_precaution := None; symptom_severity := None;
                medquad := None |} in
  display_disease_description "FLU" dfs = display_disease_description "flu" dfs
  \/ (display_disease_description "FLU" dfs
      = Ok [CStr "Disease 'FLU' not found in the dataset."]
      /\ display_disease_description "flu" dfs
         = Ok [CStr "Disease 'flu' not found in the dataset."]).
Proof.
  intros dfs.
  apply (proj1 (exact_lookups_ignore_case "FLU" "flu" dfs
                  eq_refl eq_refl eq_refl)).
Defined.

(** ** More on the substring lookups *)

Section SubstringFacts.

Lemma medquad_select_plain
  (disease_name keyword : string) (df : list medquad_row) :
  plain disease_name = true -> plain keyword = true ->
  Pd.has_str_accessor (map question df) = true ->
  medquad_select disease_name keyword df
  = Ok (filter (holds_both disease_name keyword) df).
Proof.
  intros Hn Hk Ha.
  rewrite (medquad_select_compiled disease_name keyword _ _ df
             (compile_plain _ Hn) (compile_plain _ Hk) Ha).
  f_equal. apply filter_ext. intros r.
  unfold question_matches, holds_both.
  destruct (question r); auto. now rewrite !search_lit.
Qed.

Lemma prefix_chars (p s : string) (c : ascii) :
  String.prefix p s = true -> In c (chars p) -> In c (chars s).
Proof.
  revert s. induction p as [|a p IH]; intros s H Hc; [contradiction|].
  destruct s as [|b s]; [discriminate|].
  simpl in H. destruct (ascii_dec a b) as [->|]; [|discriminate].
  destruct Hc as [<- | Hc]; [now left | right; now apply IH].
Qed.

Lemma contains_chars (p s : string) (c : ascii) :
  Py.contains p s = true -> In c (chars p) -> In c (chars s).
Proof.
  induction s as [|b s IH]; cbn [Py.contains]; intros H Hc.
  - rewrite orb_false_r in H. now apply (prefix_chars p "").
  - apply orb_prop in H as [H | H].
    + now apply (prefix_chars p (String b s)).
    + right. now apply IH.
Qed.

Lemma lower_chars_not_upper (s : string) (c : ascii) :
  In c (chars (Py.lower s)) -> Py.isupper c = false.
Proof.
  induction s as [|a s IH]; [contradiction|].
  intros [<- | H]; [apply lower_char_not_upper | now apply IH].
Qed.

Lemma upper_never_contained (p s : string) :
  has_upper p = true -> Py.contains p (Py.lower s) = false.
Proof.
  intros H. apply existsb_exists in H as [c [Hc Hu]].
  destruct (Py.contains p (Py.lower s)) eqn:E; [|reflexivity].
  apply (contains_chars _ _ c E) in Hc.
  apply lower_chars_not_upper in Hc. congruence.
Qed.

Lemma contains_empty (s : string) : Py.contains "" s = true.
Proof.
  destruct s; reflexivity.
Qed.

Lemma parse_plain_app (a s : string) :
  plain a = true ->
  forall outer top,
    Re.parse (a ++ s) outer top false
    = Re.parse s outer (push_all a top) false.
Proof.
  induction a as [|c a IH]; intros H outer top; [reflexivity|].
  simpl in H. apply andb_prop in H as [Hc Hs].
  apply negb_true_iff in Hc. unfold is_special in Hc.
  repeat (apply orb_false_iff in Hc as [Hc ?]).
  cbn [append Re.parse push_all]. unfold Re.is_quantifier.
  repeat match goal with E : Ascii.eqb c _ = false |- _ =>
    rewrite E; clear E end.
  cbn [orb]. now apply IH.
Qed.

Lemma malformed_invalid (text : string) :
  malformed text -> Re.compile text = Re.Invalid.
Proof.
  unfold Re.compile.
  intros [q rest Hq | a rest Ha | a b Ha Hb | a Ha].
  - unfold Re.is_quantifier in Hq.
    apply orb_prop in Hq as [Hq | Hq]; [apply orb_prop in Hq as [Hq | Hq]|];
      apply Ascii.eqb_eq in Hq; subst q; reflexivity.
  - rewrite (parse_plain_app a _ Ha). reflexivity.
  - rewrite (parse_plain_app a _ Ha). cbn [append Re.parse Ascii.eqb].
    cbn. rewrite (parse_plain b Hb). reflexivity.
  - rewrite (parse_plain_app a _ Ha). reflexivity.
Qed.

Lemma has_str_accessor_none (col : list cell) :
  col <> [] -> Forall (fun c => is_str c = false) col ->
  Pd.has_str_accessor col = false.
Proof.
  intros Hne H. destruct col as [|c col]; [contradiction|].
  unfold Pd.has_str_accessor.
  destruct (existsb is_str (c :: col)) eqn:E; [|reflexivity].
  apply existsb_exists in E as [x [Hx Ex]].
  rewrite Forall_forall in H. rewrite (H x Hx) in Ex. discriminate.
Qed.

End SubstringFacts.

(** For a disease name without metacharacters, the diagnosis and the
    research lookup select the rows whose lowered question holds the name
    as entered and the word "diagnose", respectively "research", and write
    their answers in table order behind their header; with no such row they
    write their "not found" message. *)
Theorem diagnosis_and_research_of_plain_name :
  forall (disease_name : string) (dfs : dataframes) (df : list medquad_row),
    medquad dfs = Some df ->
    plain disease_name = true ->
    Pd.has_str_accessor (map question df) = true ->
    display_disease_diagnosis disease_name dfs
    = Ok (answers_or
            ("No diagnosis found for '" ++ disease_name
             ++ "' in the 'medquad' dataset.")
            ("Diagnosis of " ++ Py.capitalize disease_name
             ++ " (from 'medquad' dataset):")
            (map answer (filter (holds_both disease_name "diagnose") df)))
    /\ display_disease_research disease_name dfs
       = Ok (answers_or
               ("No research information found for '" ++ disease_name
                ++ "' in the 'medquad' dataset.")
               ("Research about " ++ Py.capitalize disease_name
                ++ " (from 'medquad' dataset):")
               (map answer (filter (holds_both disease_name "research") df))).
Proof.
  intros name dfs df Hd Hp Ha.
  unfold display_disease_diagnosis, display_disease_research, answers_or.
  rewrite Hd.
  rewrite (medquad_select_plain name "diagnose" df Hp eq_refl Ha).
  rewrite (medquad_select_plain name "research" df Hp eq_refl Ha).
  split;
    match goal with |- context [map answer ?l] =>
      destruct (map answer l); reflexivity end.
Qed.

Lemma diagnosis_and_research_of_plain_name_witness :
  let rows := [{| question := CStr "How to diagnose Glaucoma ?";
                  answer := CStr "An eye exam." |};
               {| question := CStr "What research is being done for Glaucoma ?";
                  answer := CStr "Trials." |}] in
  let dfs := {| dataset := None; symptom_description := None;
                symptom_precaution := None; symptom_severity := None;
                medquad := Some rows |} in
  display_disease_diagnosis "glaucoma" dfs
  = Ok [CStr "Diagnosis of Glaucoma (from 'medquad' dataset):";
        CStr "- An eye exam."]
  /\ display_disease_research "glaucoma" dfs
     = Ok [CStr "Research about Glaucoma (from 'medquad' dataset):";
           CStr "- Trials."].
Proof.
  intros rows dfs.
  apply (diagnosis_and_research_of_plain_name "glaucoma" dfs rows
           eq_refl eq_refl eq_refl).
Defined.

(** The substring lookups lower the question and leave the disease name as
    typed, so a name with an upper-case letter (and no metacharacter) is
    never found, whatever the table holds. *)
Theorem upper_case_name_is_never_found :
  forall (disease_name : string) (dfs : dataframes) (df : list medquad_row),
    medquad dfs = Some df ->
    Pd.has_str_accessor (map question df) = true ->
    plain disease_name = true ->
    has_upper disease_name = true ->
    display_disease_causes disease_name dfs
    = Ok [CStr ("No causes found for '" ++ disease_name
                ++ "' in the 'medquad' dataset.")]
    /\ display_disease_diagnosis disease_name dfs
       = Ok [CStr ("No diagnosis found for '" ++ disease_name
                   ++ "' in the 'medquad' dataset.")]
    /\ display_disease_research disease_name dfs
       = Ok [CStr ("No research information found for '" ++ disease_name
                   ++ "' in the 'medquad' dataset.")].
Proof.
  intros name dfs df Hd Ha Hp Hu.
  assert (F : forall kw, filter (holds_both name kw) df = []).
  { intros kw. apply filter_none. intros r _. unfold holds_both.
    destruct (question r); auto.
    now rewrite (upper_never_contained name s Hu). }
  unfold display_disease_causes, display_disease_diagnosis,
    display_disease_research.
  rewrite Hd.
  rewrite (medquad_select_plain name "cause" df Hp eq_refl Ha).
  rewrite (medquad_select_plain name "diagnose" df Hp eq_refl Ha).
  rewrite (medquad_select_plain name "research" df Hp eq_refl Ha).
  rewrite !F. repeat split; reflexivity.
Qed.

Lemma upper_case_name_is_never_found_witness :
  let rows := [{| question := CStr "What causes Glaucoma ?";
                  answer := CStr "Pressure in the eye." |}] in
  let dfs := {| dataset := None; symptom_description := None;
                symptom_precaution := None; symptom_severity := None;
                medquad := Some rows |} in
  display_disease_causes "Glaucoma" dfs
  = Ok [CStr "No causes found for 'Glaucoma' in the 'medquad' dataset."].
Proof.
  intros rows dfs.
  apply (proj1 (upper_case_name_is_never_found "Glaucoma" dfs rows
                  eq_refl eq_refl eq_refl eq_refl)).
Defined.

(** An empty disease name is contained in every question, so each substring
    lookup then returns the answer of every row whose lowered question
    holds its topic keyword. *)
Theorem empty_name_selects_every_keyword_row :
  forall (dfs : dataframes) (df : list medquad_row),
    medquad dfs = Some df ->
    Pd.has_str_accessor (map question df) = true ->
    let about keyword :=
      map answer
          (filter (fun r => match question r with
                            | CStr q => Py.contains keyword (Py.lower q)
                            | _ => false
                            end) df) in
    display_disease_causes "" dfs
    = Ok (answers_or "No causes found for '' in the 'medquad' dataset."
                     "Causes of  (from 'medquad' dataset):" (about "cause"))
    /\ display_disease_diagnosis "" dfs
       = Ok (answers_or "No diagnosis found for '' in the 'medquad' dataset."
                        "Diagnosis of  (from 'medquad' dataset):"
                        (about "diagnose"))
    /\ display_disease_research "" dfs
       = Ok (answers_or
               "No research information found for '' in the 'medquad' dataset."
               "Research about  (from 'medquad' dataset):"
               (about "research")).
Proof.
  intros dfs df Hd Ha about.
  assert (F : forall kw,
             filter (holds_both "" kw) df
             = filter (fun r => match question r with
                                | CStr q => Py.contains kw (Py.lower q)
                                | _ => false
                                end) df).
  { intros kw. apply filter_ext. intros r. unfold holds_both.
    destruct (question r); auto. now rewrite contains_empty. }
  unfold display_disease_causes, display_disease_diagnosis,
    display_disease_research, answers_or, about.
  rewrite Hd.
  rewrite (medquad_select_plain "" "cause" df eq_refl eq_refl Ha).
  rewrite (medquad_select_plain "" "diagnose" df eq_refl eq_refl Ha).
  rewrite (medquad_select_plain "" "research" df eq_refl eq_refl Ha).
  rewrite !F.
  repeat split;
    match goal with |- context [map answer ?l] =>
      destruct (map answer l); reflexivity end.
Qed.

Lemma empty_name_selects_every_keyword_row_witness :
  let rows := [{| question := CStr "What causes Glaucoma ?";
                  answer := CStr "Pressure in the eye." |};
               {| question := CStr "What is Flu ?";
                  answer := CStr "An infection." |};
               {| question := CStr "What causes Flu ?";
                  answer := CStr "Influenza viruses." |}] in
  display_disease_causes ""
    {| dataset := None; symptom_description := None;
       symptom_precaution := None; symptom_severity := None;
       medquad := Some rows |}
  = Ok [CStr "Causes of  (from 'medquad' dataset):";
        CStr "- Pressure in the eye."; CStr "- Influenza viruses."].
Proof.
  intros rows.
  apply (proj1 (empty_name_selects_every_keyword_row
                  {| dataset := None; symptom_description := None;
                     symptom_precaution := None; symptom_severity := None;
                     medquad := Some rows |} rows eq_refl eq_refl)).
Defined.

(** A disease name that is not a regular expression makes the three
    substring lookups raise [re.error] on every loaded table with a text
    question column, an empty table included: the pattern is compiled
    before any row is read.  Such names are those with a leading [*], [+]
    or [?], with a closing parenthesis after plain text, with an opening
    parenthesis followed by plain text only, or with a final backslash. *)
Theorem malformed_name_raises :
  forall (disease_name : string) (dfs : dataframes) (df : list medquad_row),
    medquad dfs = Some df ->
    Pd.has_str_accessor (map question df) = true ->
    malformed disease_name ->
    display_disease_causes disease_name dfs = Raise re_error
    /\ display_disease_diagnosis disease_name dfs = Raise re_error
    /\ display_disease_research disease_name dfs = Raise re_error.
Proof.
  intros name dfs df Hd Ha Hm.
  apply malformed_invalid in Hm.
  unfold display_disease_causes, display_disease_diagnosis,
    display_disease_research, medquad_select, str_contains.
  rewrite Hd, Ha, Hm. repeat split; reflexivity.
Qed.

Lemma malformed_name_raises_witness :
  let dfs := {| dataset := None; symptom_description := None;
                symptom_precaution := None; symptom_severity := None;
                medquad := Some [] |} in
  display_disease_causes "hepatitis (type b" dfs = Raise re_error
  /\ display_disease_diagnosis "hepatitis (type b" dfs = Raise re_error
  /\ display_disease_research "hepatitis (type b" dfs = Raise re_error.
Proof.
  intros dfs.
  apply (malformed_name_raises "hepatitis (type b" dfs [] eq_refl eq_refl).
  apply (unclosed_group "hepatitis " "type b"); reflexivity.
Defined.

(** A loaded table whose key column holds rows but no string has no [.str]
    accessor: the lookup on it raises [AttributeError] for every query, and
    for the question column of medquad this comes before the pattern is
    even compiled. *)
Theorem key_column_without_text_raises :
  forall (text : string) (dfs : dataframes),
    (forall df, symptom_description dfs = Some df -> df <> [] ->
                Forall (fun r => is_str (d_Disease r) = false) df ->
                display_disease_description text dfs = Raise AttributeError)
    /\ (forall df, symptom_precaution dfs = Some df -> df <> [] ->
                   Forall (fun r => is_str (p_Disease r) = false) df ->
                   display_precautions text dfs = Raise AttributeError)
    /\ (forall df, symptom_severity dfs = Some df -> df <> [] ->
                   Forall (fun r => is_str (Symptom r) = false) df ->
                   display_symptom_severity text dfs = Raise AttributeError)
    /\ (forall df, medquad dfs = Some df -> df <> [] ->
                   Forall (fun r => is_str (question r) = false) df ->
                   display_disease_causes text dfs = Raise AttributeError
                   /\ display_disease_diagnosis text dfs = Raise AttributeError
                   /\ display_disease_research text dfs = Raise AttributeError).
Proof.
  intros text dfs.
  assert (A : forall (R : Type) (key : R -> cell) (df : list R),
             df <> [] -> Forall (fun r => is_str (key r) = false) df ->
             Pd.has_str_accessor (map key df) = false).
  { intros R key df Hne H. apply has_str_accessor_none.
    - destruct df; [contradiction | discriminate].
    - now apply Forall_map. }
  split; [|split; [|split]].
  - intros df Hd Hne H. unfold display_disease_description.
    now rewrite Hd, (A _ d_Disease df Hne H).
  - intros df Hd Hne H. unfold display_precautions.
    now rewrite Hd, (A _ p_Disease df Hne H).
  - intros df Hd Hne H. unfold display_symptom_severity.
    now rewrite Hd, (A _ Symptom df Hne H).
  - intros df Hd Hne H.
    unfold display_disease_causes, display_disease_diagnosis,
      display_disease_research, medquad_select.
    rewrite Hd, (A _ question df Hne H). repeat split; reflexivity.
Qed.

Lemma key_column_without_text_raises_witness :
  display_disease_description "flu"
    {| dataset := None;
       symptom_description :=
         Some [{| d_Disease := CNaN; Description := CStr "No name." |}];
       symptom_precaution := None; symptom_severity := None;
       medquad := None |}
  = Raise AttributeError.
Proof.
  apply (proj1 (key_column_without_text_raises "flu"
                  {| dataset := None;
                     symptom_description :=
                       Some [{| d_Disease := CNaN;
                                Description := CStr "No name." |}];
                     symptom_precaution := None; symptom_severity := None;
                     medquad := None |})
           [{| d_Disease := CNaN; Description := CStr "No name." |}] eq_refl).
  - discriminate.
  - repeat constructor.
Defined.

(** ** Loading the tables *)

Section LoadingFacts.

Context {DataFrame : Type} (read_csv : string -> read_result DataFrame).

Lemma getitem_setitem (k k' : string) (v : DataFrame) (d : dict DataFrame) :
  getitem k (setitem k' v d)
  = if String.eqb k k' then Some v else getitem k d.
Proof.
  induction d as [|[k0 v0] d IH]; simpl.
  - reflexivity.
  - destruct (String.eqb k' k0) eqn:E0; simpl.
    + apply String.eqb_eq in E0. subst k0.
      now destruct (String.eqb k k').
    + rewrite IH. destruct (String.eqb k k0) eqn:E1; [|reflexivity].
      apply String.eqb_eq in E1. subst k0.
      destruct (String.eqb k k') eqn:E2; [|reflexivity].
      apply String.eqb_eq in E2. subst k'.
      rewrite String.eqb_refl in E0. discriminate.
Qed.

Lemma load_files_finished (paths : list string) (s : loading DataFrame) :
  (forall p, In p paths -> caught read_csv p) ->
  exists s',
    load_files read_csv paths s = Finished s'
    /\ written s' = (written s ++ map (load_line read_csv) paths)%list
    /\ forall k, getitem k (frames s')
                 = after_files read_csv paths k (getitem k (frames s)).
Proof.
  revert s. induction paths as [|p paths IH]; intros s H.
  - exists s. simpl. rewrite app_nil_r. auto.
  - assert (Hp := H p (or_introl eq_refl)).
    assert (Hrest : forall q, In q paths -> caught read_csv q)
      by (intros q Hq; apply H; now right).
    unfold caught in Hp.
    pose proof (eq_refl (frame_at read_csv p)) as F.
    unfold frame_at at 2 in F.
    destruct (read_csv p) as [df| | |e|e] eqn:R;
      [ | | | | now destruct (Hp e)];
      cbn [load_files map after_files fold_left];
      unfold load_line at 1; rewrite R, F;
      match goal with |- context [load_files read_csv paths ?st] =>
        destruct (IH st Hrest) as (s' & L & W & G) end;
      exists s'; (split; [exact L|]); (split;
        [ rewrite W; cbn [written]; rewrite <- app_assoc; reflexivity
        | intros k; rewrite G; cbn [frames]; rewrite ?getitem_setitem;
          unfold after_files; now destruct (String.eqb k (df_name p)) ]).
Qed.

End LoadingFacts.

Section PathFacts.

Lemma split_no_sep (s : string) :
  Path.has_sep s = false -> Py.split Path.sep s = [s].
Proof.
  induction s as [|c s IH]; simpl; [reflexivity|].
  intros H. apply orb_false_iff in H as [Hc Hs].
  rewrite Hc, (IH Hs). reflexivity.
Qed.

Lemma ends_with_sep_split (a : string) :
  Path.ends_with_sep a = true -> exists a', a = a' ++ String Path.sep "".
Proof.
  induction a as [|c a IH]; [discriminate|].
  destruct a as [|b a].
  - simpl. intros E. apply Ascii.eqb_eq in E. subst c. now exists "".
  - intros E. destruct (IH E) as [a' Ea]. exists (String c a').
    simpl. now rewrite <- Ea.
Qed.

Lemma append_assoc (a b c : string) : (a ++ b) ++ c = a ++ (b ++ c).
Proof.
  induction a as [|x a IH]; simpl; [reflexivity | now rewrite IH].
Qed.

Lemma basename_after_sep (a b : string) :
  Path.has_sep b = false -> Path.basename (a ++ String Path.sep b) = b.
Proof.
  intros H. unfold Path.basename.
  rewrite split_app, (split_no_sep b H). apply last_last.
Qed.

Lemma basename_join (script_dir filename : string) :
  Path.has_sep filename = false ->
  Path.basename (Path.join script_dir filename) = filename.
Proof.
  intros H. unfold Path.join.
  assert (S : Path.starts_with_sep filename = false).
  { destruct filename as [|c f]; [reflexivity|].
    simpl in *. now apply orb_false_iff in H as [-> _]. }
  rewrite S. destruct script_dir as [|c d].
  - simpl. unfold Path.basename. now rewrite (split_no_sep filename H).
  - destruct (Path.ends_with_sep (String c d)) eqn:E.
    + apply ends_with_sep_split in E as [a' ->].
      rewrite append_assoc. simpl. now apply basename_after_sep.
    + now apply basename_after_sep.
Qed.

End PathFacts.

(** Wherever the script lies, the loop stores the five files under the keys
    that the query functions test: dataset, symptom_description,
    symptom_precaution, Symptom-severity and medquad. *)
Theorem keys_of_the_tables :
  forall script_dir : string,
    map df_name (filepaths script_dir)
    = ["dataset"; "symptom_description"; "symptom_precaution";
       "Symptom-severity"; "medquad"]
    /\ forall filename, Path.has_sep filename = false ->
         df_name (Path.join script_dir filename)
         = Path.splitext_root filename.
Proof.
  intros script_dir.
  assert (K : forall filename, Path.has_sep filename = false ->
                df_name (Path.join script_dir filename)
                = Path.splitext_root filename).
  { intros f H. unfold df_name. now rewrite basename_join. }
  split; [|exact K].
  unfold filepaths, filenames. cbn [map].
  rewrite !K by reflexivity. reflexivity.
Qed.

(** When every read either succeeds or fails with one of the three
    exceptions that the loop catches, the loop finishes, writes one line
    per file in file order, and holds each table under its key exactly when
    the read of its own file succeeded: a file that fails takes no other
    table with it, and no other key is set. *)
Theorem load_failures_are_isolated :
  forall (DataFrame : Type) (read_csv : string -> read_result DataFrame)
         (script_dir : string),
    (forall p, In p (filepaths script_dir) -> caught read_csv p) ->
    exists s,
      load_tables read_csv script_dir = Finished s
      /\ written s = map (load_line read_csv) (filepaths script_dir)
      /\ getitem "dataset" (frames s)
         = frame_at read_csv (Path.join script_dir "dataset.csv")
      /\ getitem "symptom_description" (frames s)
         = frame_at read_csv (Path.join script_dir "symptom_description.csv")
      /\ getitem "symptom_precaution" (frames s)
         = frame_at read_csv (Path.join script_dir "symptom_precaution.csv")
      /\ getitem "Symptom-severity" (frames s)
         = frame_at read_csv (Path.join script_dir "Symptom-severity.csv")
      /\ getitem "medquad" (frames s)
         = frame_at read_csv (Path.join script_dir "medquad.csv")
      /\ forall k, ~ In k ["dataset"; "symptom_description";
                           "symptom_precaution"; "Symptom-severity";
                           "medquad"] ->
                   getitem k (frames s) = None.
Proof.
  intros DataFrame read_csv script_dir H.
  destruct (load_files_finished read_csv (filepaths script_dir)
              {| frames := []; written := [] |} H) as (s & L & W & G).
  exists s. split; [exact L|]. split; [exact W|].
  destruct (keys_of_the_tables script_dir) as [_ K].
  assert (A : forall k,
             getitem k (frames s)
             = after_files read_csv (filepaths script_dir) k None)
    by (intros k; now rewrite G).
  unfold after_files, filepaths, filenames in A. cbn [map fold_left] in A.
  rewrite !K in A by reflexivity.
  change (Path.splitext_root "dataset.csv") with "dataset" in A.
  change (Path.splitext_root "symptom_description.csv")
    with "symptom_description" in A.
  change (Path.splitext_root "symptom_precaution.csv")
    with "symptom_precaution" in A.
  change (Path.splitext_root "Symptom-severity.csv")
    with "Symptom-severity" in A.
  change (Path.splitext_root "medquad.csv") with "medquad" in A.
  repeat split.
  - rewrite A. cbn [String.eqb Ascii.eqb Bool.eqb].
    now destruct (frame_at read_csv (Path.join script_dir "dataset.csv")).
  - rewrite A. cbn [String.eqb Ascii.eqb Bool.eqb].
    now destruct (frame_at read_csv
                    (Path.join script_dir "symptom_description.csv")).
  - rewrite A. cbn [String.eqb Ascii.eqb Bool.eqb].
    now destruct (frame_at read_csv
                    (Path.join script_dir "symptom_precaution.csv")).
  - rewrite A. cbn [String.eqb Ascii.eqb Bool.eqb].
    now destruct (frame_at read_csv
                    (Path.join script_dir "Symptom-severity.csv")).
  - rewrite A. cbn [String.eqb Ascii.eqb Bool.eqb].
    now destruct (frame_at read_csv (Path.join script_dir "medquad.csv")).
  - intros k Hk. rewrite A.
    assert (N : forall x, In x ["dataset"; "symptom_description";
                                "symptom_precaution"; "Symptom-severity";
                                "medquad"] -> String.eqb k x = false).
    { intros x Hx. apply String.eqb_neq. intros ->. contradiction. }
    rewrite !N by (simpl; auto 6). reflexivity.
Qed.

Lemma load_failures_are_isolated_witness :
  let read_csv p :=
    if String.eqb p "/app/medquad.csv" then RaisesFileNotFoundError
    else if String.eqb p "/app/dataset.csv" then Frame 7
    else RaisesParserError "Error tokenizing data" in
  exists s,
    load_tables read_csv "/app" = Finished s
    /\ written s
       = ["Successfully loaded dataset from /app/dataset.csv";
          "Error parsing CSV file /app/symptom_description.csv: Error tokenizing data";
          "Error parsing CSV file /app/symptom_precaution.csv: Error tokenizing data";
          "Error parsing CSV file /app/Symptom-severity.csv: Error tokenizing data";
          "File not found: /app/medquad.csv"]
    /\ getitem "dataset" (frames s) = Some 7
    /\ getitem "medquad" (frames s) = None.
Proof.
  intros read_csv.
  destruct (load_failures_are_isolated nat read_csv "/app")
    as (s & L & W & D & _ & _ & _ & M & _).
  - intros p _ e. unfold read_csv.
    destruct (String.eqb p "/app/medquad.csv"); [discriminate|].
    destruct (String.eqb p "/app/dataset.csv"); discriminate.
  - exists s. split; [exact L|]. split; [exact W|]. split; [exact D|exact M].
Defined.

Section Abort.

Context {DataFrame : Type} (read_csv : string -> read_result DataFrame).

Lemma load_files_app (pre rest : list string) (s : loading DataFrame) :
  load_files read_csv (pre ++ rest) s
  = match load_files read_csv pre s with
    | Finished s' => load_files read_csv rest s'
    | Aborted e s' => Aborted e s'
    end.
Proof.
  revert s. induction pre as [|p pre IH]; intros s; [reflexivity|].
  cbn [app load_files]. destruct (read_csv p); auto.
Qed.

End Abort.

(** An exception of [pd.read_csv] other than the three that the loop
    catches ends the loading at that file: the tables read before it stay
    in the dictionary, and no later file is read, stored or reported. *)
Theorem uncaught_error_stops_loading :
  forall (DataFrame : Type) (read_csv : string -> read_result DataFrame)
         (pre post : list string) (p e : string) (s : loading DataFrame),
    (forall q, In q pre -> caught read_csv q) ->
    read_csv p = RaisesOther e ->
    exists s',
      load_files read_csv pre s = Finished s'
      /\ load_files read_csv (pre ++ p :: post) s = Aborted e s'.
Proof.
  intros DataFrame read_csv pre post p e s H R.
  destruct (load_files_finished read_csv pre s H) as (s' & L & _).
  exists s'. split; [exact L|].
  rewrite load_files_app, L. cbn [load_files]. now rewrite R.
Qed.

Lemma uncaught_error_stops_loading_witness :
  let read_csv p :=
    if String.eqb p "/app/symptom_description.csv"
    then RaisesOther "PermissionError" else Frame 7 in
  exists s',
    load_files read_csv ["/app/dataset.csv"] {| frames := []; written := [] |}
    = Finished s'
    /\ load_files read_csv
         (["/app/dataset.csv"]
          ++ "/app/symptom_description.csv" :: ["/app/medquad.csv"])
         {| frames := []; written := [] |}
       = Aborted "PermissionError" s'.
Proof.
  intros read_csv.
  apply (uncaught_error_stops_loading nat read_csv ["/app/dataset.csv"]
           ["/app/medquad.csv"] "/app/symptom_description.csv"
           "PermissionError").
  - intros q [<- | []] e. discriminate.
  - reflexivity.
Defined.


Lemma keys_of_the_tables_witness :
  df_name (Path.join "/srv/app" "notes.v2.csv") = "notes.v2".
Proof.
  apply (proj2 (keys_of_the_tables "/srv/app") "notes.v2.csv").
  reflexivity.
Defined.

(** ** A blank input *)

Section BlankInput.

Lemma blank_user_symptoms (symptoms_input : string) :
  (forall token, In token (Py.split "," symptoms_input) ->
                 all_space token = true) ->
  forall x, In x (user_symptoms symptoms_input) <-> x = "".
Proof.
  intros Hblank x. unfold user_symptoms. rewrite in_map_iff. split.
  - intros [token [<- Ht]]. apply clean_symptom_empty. now apply Hblank.
  - intros ->.
    destruct (Py.split "," symptoms_input) as [|token l] eqn:S.
    + now apply split_not_nil in S.
    + exists token. split; [|now left].
      apply clean_symptom_empty. apply Hblank. now left.
Qed.

End BlankInput.

(** For an input whose tokens are all white space (the empty input, commas
    and blanks), the only query symptom is the empty string, which is also
    the clean form of a missing, numeric or blank cell: [match_symptoms]
    answers "No matching diseases found" exactly when no row of the table
    has such a cell, and otherwise reports every row that has one. *)
Theorem blank_input_outcome :
  forall (symptoms_input : string) (dfs : dataframes)
         (rows : list dataset_row),
    dataset dfs = Some rows ->
    (forall token, In token (Py.split "," symptoms_input) ->
                   all_space token = true) ->
    (forall row, In row (filter (row_matches (user_symptoms symptoms_input))
                                rows)
                 <-> In row rows
                     /\ exists c, In c (row_cells row) /\ clean_symptom c = "")
    /\ (match_symptoms symptoms_input dfs
        = Ok [CStr "No matching diseases found for the provided symptoms."]
        <-> forall row c, In row rows -> In c (row_cells row) ->
                          clean_symptom c <> "").
Proof.
  intros input dfs rows Hd Hblank.
  assert (B := blank_user_symptoms input Hblank).
  assert (M : forall row,
             row_matches (user_symptoms input) row = true
             <-> exists c, In c (row_cells row) /\ clean_symptom c = "").
  { intros row. rewrite row_matches_iff.
    split; intros [c [Hc H]]; exists c; split; auto; now apply B. }
  split.
  { intros row. rewrite filter_In, M. reflexivity. }
  unfold match_symptoms. rewrite Hd.
  destruct (filter (row_matches (user_symptoms input)) rows) as [|r m] eqn:F.
  - split; [|reflexivity]. intros _ row c Hrow Hc E.
    assert (Hm : row_matches (user_symptoms input) row = true)
      by (apply M; eauto).
    rewrite (proj1 (filter_none _ rows) F row Hrow) in Hm. discriminate.
  - split; [discriminate|]. intros H. exfalso.
    assert (Hr : In r (filter (row_matches (user_symptoms input)) rows))
      by (rewrite F; now left).
    apply filter_In in Hr as [Hrow Hm].
    apply M in Hm as [c [Hc E]]. exact (H r c Hrow Hc E).
Qed.

Lemma blank_input_outcome_witness :
  let flu := {| Disease := CStr "Flu";
                Symptoms := [CStr "fever"; CStr "cough"] |} in
  let acne := {| Disease := CStr "Acne"; Symptoms := [CStr "rash"; CNaN] |} in
  In acne (filter (row_matches (user_symptoms " , ")) [flu; acne]).
Proof.
  intros flu acne.
  apply (proj1 (blank_input_outcome " , "
                  {| dataset := Some [flu; acne]; symptom_description := None;
                     symptom_precaution := None; symptom_severity := None;
                     medquad := None |} [flu; acne] eq_refl
                  ltac:(intros token [<- | [<- | []]]; reflexivity)) acne).
  split; [simpl; auto|].
  exists CNaN. split; [simpl; auto | reflexivity].
Defined.
